(** * Auto Reload Scripts: the polling callback and its registration

    A shallow embedding of [Auto_Reload_Scripts.py].  The add-on runs inside
    a host application (Blender, through the [bpy] module): every access to
    [bpy] in the Python source is an access to the host.  The host is
    modelled by a record of the data the add-on reads ([Host]) together with
    the two operators it calls, [bpy.ops.text.reload] and
    [bpy.ops.text.run_script], which are left arbitrary ([TextOps]): they may
    succeed or raise, and may change the host in any way, also by creating
    or removing text and scene datablocks.

    Python code that threads the host and may raise is written in the monad
    [M]; every call of an operator, every [getattr] on a scene and every
    [print] is recorded in the trace of the computation.

    Conventions of the model:
    - text and scene datablocks are objects: a Python variable holds a
      reference to one, its attributes are read from the host when the code
      reads them, and reading an attribute of a text that has been removed
      raises [ReferenceError];
    - [for text in bpy.data.texts] visits the text objects that are in the
      collection when the loop starts, in the collection's order; one that
      has been removed before its turn is not visited, and texts created
      while the loop runs are not visited;
    - under [bpy.context.temp_override(window=...)] the scene of the context
      is the scene of that window; a window keeps its scene during a tick;
    - reading the windows, areas and regions yields a value; an operator
      that fails raises an exception deriving from [Exception] (the host
      reports operator failures as [RuntimeError]); [print] itself does not
      raise, the evaluation of its argument may.

    What the loop does with a given text is stated for a text that the loop
    reaches with the collection it started with ([reached]), or for
    operators that keep the collection ([keeps_documents]): such statements
    do not depend on how the host iterates a collection that changes. *)

From Stdlib Require Import String Ascii List Bool Arith PeanoNat Lia PrimFloat.
Import ListNotations.
Open Scope string_scope.
Open Scope list_scope.
#[local] Set Warnings "-inexact-float".

(** ** Python values *)

(** The exception classes the code meets; all of them derive from Python's
    [Exception]. *)
Inductive exn : Type :=
| ValueError (msg : string)
| RuntimeError (msg : string)
| AttributeError (msg : string)
| TypeError (msg : string)
| ReferenceError (msg : string).

(** Outcome of a Python call: a value, or a raised exception. *)
Inductive result (A : Type) : Type :=
| Ok (a : A)
| Raise (e : exn).
Arguments Ok {A} a.
Arguments Raise {A} e.

(** [str(exc)] *)
Definition str (e : exn) : string :=
  match e with
  | ValueError m | RuntimeError m | AttributeError m | TypeError m
  | ReferenceError m => m
  end.

(** [except Exception] catches every exception of [exn]. *)
Definition except_Exception (e : exn) : bool := true.

(** [except ValueError] *)
Definition except_ValueError (e : exn) : bool :=
  match e with
  | ValueError _ => true
  | _ => false
  end.

(** [str.lower], on the bytes of the string: the ASCII capitals change.
    This decides the suffix test below as Python does, since no other
    character lowers to ['.'], ['p'] or ['y']. *)
Definition lower_ascii (c : ascii) : ascii :=
  let n := nat_of_ascii c in
  if ((65 <=? n) && (n <=? 90))%nat then ascii_of_nat (n + 32) else c.

Fixpoint lower (s : string) : string :=
  match s with
  | EmptyString => EmptyString
  | String c rest => String (lower_ascii c) (lower rest)
  end.

(** [str.endswith] *)
Definition endswith (s suffix : string) : bool :=
  let n := String.length s in
  let k := String.length suffix in
  if (k <=? n)%nat then String.eqb (substring (n - k) k s) suffix else false.

(** ** Module constants *)

Definition DEFAULT_CHECK_INTERVAL : float := 0.5%float.
Definition PROP_INTERVAL : string := "ars_check_interval".
Definition PROP_RUN_SCRIPT : string := "ars_run_after_reload".

(** Identifiers of the module's callables and classes, as the host's
    registries know them. *)
Definition auto_reload_scripts_timer_id : string := "auto_reload_scripts_timer".
Definition ARS_PT_ReloadPanel : string := "ARS_PT_ReloadPanel".
Definition ars_text_menu : string := "ars_text_menu".
Definition classes_to_register : list string := [ARS_PT_ReloadPanel].

(** ** The host's data *)

(** References to the datablocks of the host: a Python variable bound to a
    text or a scene holds one. *)
Definition TextRef : Type := nat.
Definition SceneRef : Type := nat.

(** [window.screen.areas], [area.type], [area.regions], [region.type];
    [window_scene] is the scene the window shows ([window.scene]). *)
Record Region : Type := { region_type : string }.
Record Area : Type := { area_type : string; regions : list Region }.
Record Screen : Type := { areas : list Area }.
Record Window : Type := { screen : Screen; window_scene : SceneRef }.

(** The attributes of a text datablock of [bpy.data.texts]. *)
Record Text : Type := {
  name : string;
  filepath : string;
  is_modified : bool
}.

(** Property definitions attached to the type [bpy.types.Scene]. *)
Record FloatProperty : Type := {
  fp_name : string;
  fp_min : float;
  fp_max : float;
  fp_default : float;
  fp_step : float;
  fp_precision : nat
}.
Record BoolProperty : Type := {
  bp_name : string;
  bp_default : bool
}.

(** The two attributes of [bpy.types.Scene] the add-on defines and deletes;
    [None] when the type has no such attribute. *)
Record SceneType : Type := {
  ars_check_interval : option FloatProperty;
  ars_run_after_reload : option BoolProperty
}.

(** A scene: the values stored for the two properties ([None]: never set,
    the property's default applies). *)
Record Scene : Type := {
  stored_interval : option float;
  stored_run_after_reload : option bool
}.

(** An entry of [bpy.app.timers]. *)
Record Timer : Type := {
  timer_function : string;
  first_interval : float;
  persistent : bool
}.

Record Host : Type := {
  (** [bpy.context.scene] outside any override; [None] when the context
      has no [scene] attribute or the attribute is [None] *)
  context_scene : option SceneRef;
  (** [bpy.data.scenes]: the scene objects with what they store *)
  data_scenes : list (SceneRef * Scene);
  (** [bpy.types.Scene] *)
  types_Scene : SceneType;
  (** [bpy.context.window_manager.windows] *)
  wm_windows : list Window;
  (** [bpy.data.texts]: the text objects with their attributes, in the
      host's order *)
  data_texts : list (TextRef * Text);
  (** [bpy.app.timers] *)
  app_timers : list Timer;
  (** classes registered through [bpy.utils.register_class] *)
  registered_classes : list string;
  (** draw functions of [bpy.types.TEXT_MT_text]; [None] when [bpy.types]
      has no such attribute *)
  types_TEXT_MT_text : option (list string)
}.

(** The datablock a reference points to, [None] once it has been removed. *)
Fixpoint lookup {A : Type} (r : nat) (l : list (nat * A)) : option A :=
  match l with
  | [] => None
  | (r', v) :: rest => if (r =? r')%nat then Some v else lookup r rest
  end.

Definition text_at (h : Host) (p : TextRef) : option Text := lookup p (data_texts h).
Definition scene_at (h : Host) (r : SceneRef) : option Scene := lookup r (data_scenes h).

(** The text objects of [bpy.data.texts], in the collection's order.  An
    object is in the collection once: should [data_texts] repeat a
    reference, the repetition is dropped here, as [lookup] ignores it. *)
Definition texts_of (h : Host) : list TextRef :=
  nodup Nat.eq_dec (map fst (data_texts h)).

(** The scene [bpy.context.scene] yields outside any override, when line 43
    finds one. *)
Definition scene_of_context (h : Host) : option Scene :=
  match context_scene h with
  | Some r => scene_at h r
  | None => None
  end.

(** [getattr(scene, PROP_INTERVAL, default)]: the attribute exists on a scene
    exactly when the type defines the property. *)
Definition getattr_interval (ty : SceneType) (sc : Scene) (default : float) : float :=
  match ars_check_interval ty with
  | None => default
  | Some p =>
      match stored_interval sc with
      | Some v => v
      | None => fp_default p
      end
  end.

(** [getattr(scene, PROP_RUN_SCRIPT, default)] *)
Definition getattr_run_after_reload (ty : SceneType) (sc : Scene) (default : bool) : bool :=
  match ars_run_after_reload ty with
  | None => default
  | Some p =>
      match stored_run_after_reload sc with
      | Some v => v
      | None => bp_default p
      end
  end.

(** The editor found by [find_text_editor]: [(window, area, region)]. *)
Definition EditorCtx : Type := (Window * Area * Region)%type.

(** The dictionary passed to [bpy.context.temp_override]. *)
Record Override : Type := {
  ov_window : Window;
  ov_area : Area;
  ov_region : Region;
  edit_text : TextRef
}.

(** The scene [bpy.context.scene] yields under the override: the scene of
    the override's window. *)
Definition scene_of_override (override : Override) (h : Host) : option Scene :=
  scene_at h (window_scene (ov_window override)).

(** The host's operators on the text under [edit_text].  Each returns its
    outcome and the host as it leaves it. *)
Record TextOps : Type := {
  (** [bpy.ops.text.reload()] *)
  text_reload : Override -> Host -> result unit * Host;
  (** [bpy.ops.text.run_script()] *)
  text_run_script : Override -> Host -> result unit * Host
}.

(** ** Traces *)

Inductive Event : Type :=
| EGetattr (prop : string)      (** [getattr(bpy.context.scene, prop, _)] *)
| EReload (doc : TextRef)       (** [bpy.ops.text.reload()] called on [doc] *)
| ERunScript (doc : TextRef)    (** [bpy.ops.text.run_script()] called on [doc] *)
| EPrint (line : string).       (** [print(line)] *)

Definition Event_eq_dec (a b : Event) : {a = b} + {a <> b}.
Proof.
  decide equality; solve [apply string_dec | apply Nat.eq_dec].
Defined.

Definition count (e : Event) (t : list Event) : nat := count_occ Event_eq_dec t e.

(** ** The monad of host computations *)

Definition M (A : Type) : Type := Host -> result A * Host * list Event.

Definition ret {A} (a : A) : M A := fun h => (Ok a, h, []).

Definition bind {A B} (m : M A) (f : A -> M B) : M B :=
  fun h =>
    match m h with
    | (Ok a, h1, t1) => let '(r, h2, t2) := f a h1 in (r, h2, t1 ++ t2)
    | (Raise e, h1, t1) => (Raise e, h1, t1)
    end.

Notation "x <- m ;; k" := (bind m (fun x => k))
  (at level 61, m at next level, right associativity).
Notation "m ;; k" := (bind m (fun _ => k))
  (at level 61, right associativity).

Definition raise {A} (e : exn) : M A := fun h => (Raise e, h, []).

(** [try: body  except <catches> as e: handler e] *)
Definition try_except {A} (body : M A) (catches : exn -> bool) (handler : exn -> M A) : M A :=
  fun h =>
    match body h with
    | (Ok a, h1, t1) => (Ok a, h1, t1)
    | (Raise e, h1, t1) =>
        if catches e
        then let '(r, h2, t2) := handler e h1 in (r, h2, t1 ++ t2)
        else (Raise e, h1, t1)
    end.

Definition get_host : M Host := fun h => (Ok h, h, []).
Definition put_host (h' : Host) : M unit := fun _ => (Ok tt, h', []).
Definition emit (e : Event) : M unit := fun h => (Ok tt, h, [e]).
Definition print (line : string) : M unit := emit (EPrint line).

(** A call of a host operator, recorded as [e]. *)
Definition call_op (e : Event) (op : Host -> result unit * Host) : M unit :=
  fun h => let '(r, h1) := op h in (r, h1, [e]).

(** Projections of a finished computation. *)
Definition outcome {A} (r : result A * Host * list Event) : result A := fst (fst r).
Definition final_host {A} (r : result A * Host * list Event) : Host := snd (fst r).
Definition trace {A} (r : result A * Host * list Event) : list Event := snd r.

(** ** [auto_reload_scripts_timer] *)

(** [next((r for r in area.regions if r.type == 'WINDOW'), None)] *)
Definition window_region (a : Area) : option Region :=
  find (fun r => region_type r =? "WINDOW") (regions a).

Fixpoint find_in_areas (w : Window) (l : list Area) : option EditorCtx :=
  match l with
  | [] => None
  | a :: rest =>
      if area_type a =? "TEXT_EDITOR" then
        match window_region a with
        | Some r => Some (w, a, r)
        | None => find_in_areas w rest
        end
      else find_in_areas w rest
  end.

Fixpoint find_text_editor (ws : list Window) : option EditorCtx :=
  match ws with
  | [] => None
  | w :: rest =>
      match find_in_areas w (areas (screen w)) with
      | Some ctx => Some ctx
      | None => find_text_editor rest
      end
  end.

(** The test of line 57:
    [text.filepath and text.filepath.lower().endswith('.py') and text.is_modified] *)
Definition should_reload (text : Text) : bool :=
  negb (filepath text =? "") && endswith (lower (filepath text)) ".py" && is_modified text.

Definition mk_override (ctx : EditorCtx) (doc : TextRef) : Override :=
  {| ov_window := fst (fst ctx);
     ov_area := snd (fst ctx);
     ov_region := snd ctx;
     edit_text := doc |}.

(** What reading an attribute of a removed text raises. *)
Definition text_removed : exn :=
  ReferenceError "StructRNA of type Text has been removed".

(** [text.name]: the name the text has now; [ReferenceError] once the text
    has been removed. *)
Definition text_name (p : TextRef) : M string :=
  h <- get_host ;;
  match text_at h p with
  | Some text => ret (name text)
  | None => raise text_removed
  end.

(** [print(f"<prefix>{text.name}<suffix>")] *)
Definition print_about (prefix : string) (p : TextRef) (suffix : string) : M unit :=
  text_name_now <- text_name p ;;
  print (prefix ++ text_name_now ++ suffix)%string.

(** Lines 43-46: the interval, or the default without a scene. *)
Definition read_interval : M float :=
  h <- get_host ;;
  match scene_of_context h with
  | Some sc =>
      emit (EGetattr PROP_INTERVAL) ;;
      ret (getattr_interval (types_Scene h) sc DEFAULT_CHECK_INTERVAL)
  | None => ret DEFAULT_CHECK_INTERVAL
  end.

Section Timer.

Variable ops : TextOps.

(** Lines 69-75, under the override: run the script when the option is on. *)
Definition run_after_reload (override : Override) : M unit :=
  h <- get_host ;;
  match scene_of_override override h with
  | Some sc =>
      emit (EGetattr PROP_RUN_SCRIPT) ;;
      if getattr_run_after_reload (types_Scene h) sc false then
        try_except
          (call_op (ERunScript (edit_text override)) (text_run_script ops override) ;;
           print_about "AutoReloadScripts: executed " (edit_text override) "")
          except_Exception
          (fun exc_run =>
             print_about "AutoReloadScripts: failed to execute " (edit_text override)
                         (": " ++ str exc_run)%string)
      else ret tt
  | None => ret tt
  end.

(** Lines 56-79: the body of the loop, for the text object [text]. *)
Definition reload_text (editor_ctx : EditorCtx) (text : TextRef) : M unit :=
  h <- get_host ;;
  match text_at h text with
  | None => ret tt
  | Some attrs =>
      if should_reload attrs then
        try_except
          (let override := mk_override editor_ctx text in
           call_op (EReload (edit_text override)) (text_reload ops override) ;;
           run_after_reload override ;;
           print_about "AutoReloadScripts: reloaded " text "")
          except_Exception
          (fun exc =>
             print_about "AutoReloadScripts: failed to reload " text (": " ++ str exc)%string)
      else ret tt
  end.

(** [for text in bpy.data.texts: ...] over the text objects [texts]. *)
Fixpoint for_texts (editor_ctx : EditorCtx) (texts : list TextRef) : M unit :=
  match texts with
  | [] => ret tt
  | text :: rest => reload_text editor_ctx text ;; for_texts editor_ctx rest
  end.

Definition auto_reload_scripts_timer : M float :=
  interval_prop <- read_interval ;;
  h <- get_host ;;
  match find_text_editor (wm_windows h) with
  | None => ret interval_prop
  | Some editor_ctx =>
      for_texts editor_ctx (texts_of h) ;;
      ret interval_prop
  end.

End Timer.

(** ** Registration *)

(** Functional updates of the host's registries. *)
Definition with_types_Scene (ty : SceneType) (h : Host) : Host :=
  {| context_scene := context_scene h;
     data_scenes := data_scenes h;
     types_Scene := ty;
     wm_windows := wm_windows h;
     data_texts := data_texts h;
     app_timers := app_timers h;
     registered_classes := registered_classes h;
     types_TEXT_MT_text := types_TEXT_MT_text h |}.

Definition with_app_timers (ts : list Timer) (h : Host) : Host :=
  {| context_scene := context_scene h;
     data_scenes := data_scenes h;
     types_Scene := types_Scene h;
     wm_windows := wm_windows h;
     data_texts := data_texts h;
     app_timers := ts;
     registered_classes := registered_classes h;
     types_TEXT_MT_text := types_TEXT_MT_text h |}.

Definition with_registered_classes (cs : list string) (h : Host) : Host :=
  {| context_scene := context_scene h;
     data_scenes := data_scenes h;
     types_Scene := types_Scene h;
     wm_windows := wm_windows h;
     data_texts := data_texts h;
     app_timers := app_timers h;
     registered_classes := cs;
     types_TEXT_MT_text := types_TEXT_MT_text h |}.

Definition with_TEXT_MT_text (m : option (list string)) (h : Host) : Host :=
  {| context_scene := context_scene h;
     data_scenes := data_scenes h;
     types_Scene := types_Scene h;
     wm_windows := wm_windows h;
     data_texts := data_texts h;
     app_timers := app_timers h;
     registered_classes := registered_classes h;
     types_TEXT_MT_text := m |}.

Definition with_context_scene (sc : option SceneRef) (h : Host) : Host :=
  {| context_scene := sc;
     data_scenes := data_scenes h;
     types_Scene := types_Scene h;
     wm_windows := wm_windows h;
     data_texts := data_texts h;
     app_timers := app_timers h;
     registered_classes := registered_classes h;
     types_TEXT_MT_text := types_TEXT_MT_text h |}.

Definition with_data_scenes (scs : list (SceneRef * Scene)) (h : Host) : Host :=
  {| context_scene := context_scene h;
     data_scenes := scs;
     types_Scene := types_Scene h;
     wm_windows := wm_windows h;
     data_texts := data_texts h;
     app_timers := app_timers h;
     registered_classes := registered_classes h;
     types_TEXT_MT_text := types_TEXT_MT_text h |}.

Definition with_data_texts (ts : list (TextRef * Text)) (h : Host) : Host :=
  {| context_scene := context_scene h;
     data_scenes := data_scenes h;
     types_Scene := types_Scene h;
     wm_windows := wm_windows h;
     data_texts := ts;
     app_timers := app_timers h;
     registered_classes := registered_classes h;
     types_TEXT_MT_text := types_TEXT_MT_text h |}.

Definition is_class_registered (cls : string) (h : Host) : bool :=
  existsb (String.eqb cls) (registered_classes h).

Definition is_timer_registered (fn : string) (h : Host) : bool :=
  existsb (fun t => timer_function t =? fn) (app_timers h).

(** The host's registration interface, as the host documents it.

    [bpy.utils.register_class] raises [ValueError] for a class that is
    already registered. *)
Definition register_class (cls : string) : M unit :=
  h <- get_host ;;
  if is_class_registered cls h
  then raise (ValueError "register_class(...): already registered as a subclass")
  else put_host (with_registered_classes (registered_classes h ++ [cls]) h).

(** [bpy.utils.unregister_class] raises [RuntimeError] for a class that is
    not registered. *)
Definition unregister_class (cls : string) : M unit :=
  h <- get_host ;;
  if is_class_registered cls h
  then put_host (with_registered_classes
                   (filter (fun c => negb (cls =? c)) (registered_classes h)) h)
  else raise (RuntimeError
    "unregister_class(...):, missing bl_rna attribute from 'RNAMeta' instance (may not be registered)").

(** [bpy.app.timers.register]: the host adds an entry for the function; an
    entry the function already has stays. *)
Definition timers_register (fn : string) (first : float) (pers : bool) : M unit :=
  h <- get_host ;;
  put_host (with_app_timers
              (app_timers h
               ++ [{| timer_function := fn; first_interval := first; persistent := pers |}]) h).

(** The timers without the first entry of [fn]; [None] when it has none. *)
Fixpoint remove_timer (fn : string) (l : list Timer) : option (list Timer) :=
  match l with
  | [] => None
  | t :: rest =>
      if timer_function t =? fn then Some rest
      else match remove_timer fn rest with
           | Some rest' => Some (t :: rest')
           | None => None
           end
  end.

(** [bpy.app.timers.unregister] removes one entry of the function and raises
    [ValueError] for a function that is not registered. *)
Definition timers_unregister (fn : string) : M unit :=
  h <- get_host ;;
  match remove_timer fn (app_timers h) with
  | Some rest => put_host (with_app_timers rest h)
  | None => raise (ValueError "Error: function is not registered")
  end.

(** [list.remove]: the first occurrence, [None] when there is none. *)
Fixpoint remove_first (x : string) (l : list string) : option (list string) :=
  match l with
  | [] => None
  | y :: rest =>
      if x =? y then Some rest
      else match remove_first x rest with
           | Some rest' => Some (y :: rest')
           | None => None
           end
  end.

(** [bpy.types.TEXT_MT_text.append(draw_func)] *)
Definition TEXT_MT_text_append (draw_func : string) : M unit :=
  h <- get_host ;;
  match types_TEXT_MT_text h with
  | Some funcs => put_host (with_TEXT_MT_text (Some (funcs ++ [draw_func])) h)
  | None => raise (AttributeError "TEXT_MT_text")
  end.

(** [bpy.types.TEXT_MT_text.remove(draw_func)] *)
Definition TEXT_MT_text_remove (draw_func : string) : M unit :=
  h <- get_host ;;
  match types_TEXT_MT_text h with
  | Some funcs =>
      match remove_first draw_func funcs with
      | Some funcs' => put_host (with_TEXT_MT_text (Some funcs') h)
      | None => raise (ValueError "list.remove(x): x not in list")
      end
  | None => raise (AttributeError "TEXT_MT_text")
  end.

Fixpoint for_each {A} (f : A -> M unit) (l : list A) : M unit :=
  match l with
  | [] => ret tt
  | x :: rest => f x ;; for_each f rest
  end.

(** The definitions of lines 100-108 and 126-130. *)
Definition interval_property : FloatProperty :=
  {| fp_name := "Reload Interval (s)";
     fp_min := 0.1%float;
     fp_max := 60.0%float;
     fp_default := DEFAULT_CHECK_INTERVAL;
     fp_step := 0.1%float;
     fp_precision := 2 |}.

Definition run_after_reload_property : BoolProperty :=
  {| bp_name := "Run After Reload (Live Edit Externally)";
     bp_default := false |}.

Definition set_ars_check_interval (p : option FloatProperty) : M unit :=
  h <- get_host ;;
  put_host (with_types_Scene
              {| ars_check_interval := p;
                 ars_run_after_reload := ars_run_after_reload (types_Scene h) |} h).

Definition set_ars_run_after_reload (p : option BoolProperty) : M unit :=
  h <- get_host ;;
  put_host (with_types_Scene
              {| ars_check_interval := ars_check_interval (types_Scene h);
                 ars_run_after_reload := p |} h).

Definition register : M unit :=
  for_each register_class [ARS_PT_ReloadPanel] ;;
  h <- get_host ;;
  (match ars_check_interval (types_Scene h) with
   | None => set_ars_check_interval (Some interval_property)
   | Some _ => ret tt
   end) ;;
  first <- read_interval ;;
  timers_register auto_reload_scripts_timer_id first true ;;
  TEXT_MT_text_append ars_text_menu ;;
  h <- get_host ;;
  match ars_run_after_reload (types_Scene h) with
  | None => set_ars_run_after_reload (Some run_after_reload_property)
  | Some _ => ret tt
  end.

Definition unregister : M unit :=
  try_except (timers_unregister auto_reload_scripts_timer_id)
             except_ValueError (fun _ => ret tt) ;;
  h <- get_host ;;
  (match ars_check_interval (types_Scene h) with
   | Some _ => set_ars_check_interval None
   | None => ret tt
   end) ;;
  h <- get_host ;;
  (match ars_run_after_reload (types_Scene h) with
   | Some _ => set_ars_run_after_reload None
   | None => ret tt
   end) ;;
  for_each unregister_class (rev classes_to_register) ;;
  h <- get_host ;;
  match types_TEXT_MT_text h with
  | Some _ =>
      try_except (TEXT_MT_text_remove ars_text_menu)
                 except_ValueError (fun _ => ret tt)
  | None => ret tt
  end.

(** ** Observations used in the statements *)

Definition is_ok {A : Type} (r : result A) : bool :=
  match r with
  | Ok _ => true
  | Raise _ => false
  end.

(** What lines 43-46 read as the interval in host [h]. *)
Definition current_interval (h : Host) : float :=
  match scene_of_context h with
  | Some sc => getattr_interval (types_Scene h) sc DEFAULT_CHECK_INTERVAL
  | None => DEFAULT_CHECK_INTERVAL
  end.

(** What lines 69-70 read as the run-after-reload option in host [h], under
    the override: the option of the scene of the override's window. *)
Definition run_after_reload_enabled (override : Override) (h : Host) : bool :=
  match scene_of_override override h with
  | Some sc => getattr_run_after_reload (types_Scene h) sc false
  | None => false
  end.

(** Whether the text object [p] is in the collection and passes the test of
    line 57 in [h]. *)
Definition qualifies (h : Host) (p : TextRef) : bool :=
  match text_at h p with
  | Some text => should_reload text
  | None => false
  end.

(** The modified flag of the text object [p]. *)
Definition modified_flag (h : Host) (p : TextRef) : bool :=
  match text_at h p with
  | Some text => is_modified text
  | None => false
  end.

(** The objects the loop visits before [p]. *)
Fixpoint before (p : TextRef) (l : list TextRef) : list TextRef :=
  match l with
  | [] => []
  | x :: rest => if (x =? p)%nat then [] else x :: before p rest
  end.

(** The host in which the loop of a tick started in [h] reaches the text
    object [p]: the objects before it have been handled. *)
Definition host_at (ops : TextOps) (editor_ctx : EditorCtx) (h : Host) (p : TextRef) : Host :=
  final_host (for_texts ops editor_ctx (before p (texts_of h)) h).

(** The loop of a tick started in [h] reaches the text object [p]: [p] is
    in the collection, no exception has left the loop before its turn, and
    no text has been created or removed in between. *)
Definition reached (ops : TextOps) (editor_ctx : EditorCtx) (h : Host) (p : TextRef) : Prop :=
  In p (texts_of h)
  /\ outcome (for_texts ops editor_ctx (before p (texts_of h)) h) = Ok tt
  /\ texts_of (host_at ops editor_ctx h p) = texts_of h.

(** No window shows a text editor with a content region. *)
Definition no_visible_editor (h : Host) : Prop :=
  forall w a r,
    In w (wm_windows h) -> In a (areas (screen w)) -> In r (regions a) ->
    area_type a = "TEXT_EDITOR" -> region_type r <> "WINDOW".

(** ** A host double

    A small concrete host for the examples: [bpy.ops.text.reload] re-reads
    the file and clears the modified flag, except for the document named
    [gone.py], whose file has been deleted; [bpy.ops.text.run_script] runs
    the document: [switch_off.py] turns the run-after-reload option off on
    the scene of its context, the one of the override's window,
    [selfdel.py] removes its own text from
    [bpy.data.texts], [broken.py] fails, any other script does nothing
    visible. *)

Definition set_is_modified (b : bool) (text : Text) : Text :=
  {| name := name text; filepath := filepath text; is_modified := b |}.

(** The datablock under [r] changed by [f]. *)
Fixpoint update {A : Type} (r : nat) (f : A -> A) (l : list (nat * A)) : list (nat * A) :=
  match l with
  | [] => []
  | (r', v) :: rest =>
      if (r =? r')%nat then (r', f v) :: update r f rest else (r', v) :: update r f rest
  end.

(** The collection without the datablock under [r]. *)
Fixpoint remove_ref {A : Type} (r : nat) (l : list (nat * A)) : list (nat * A) :=
  match l with
  | [] => []
  | (r', v) :: rest =>
      if (r =? r')%nat then remove_ref r rest else (r', v) :: remove_ref r rest
  end.

Definition double_reload (ov : Override) (h : Host) : result unit * Host :=
  match text_at h (edit_text ov) with
  | None => (Raise (RuntimeError "Operator bpy.ops.text.reload.poll() failed, context is incorrect"), h)
  | Some text =>
      if name text =? "gone.py"
      then (Raise (RuntimeError "Could not reopen file"), h)
      else (Ok tt,
            with_data_texts (update (edit_text ov) (set_is_modified false) (data_texts h)) h)
  end.

Definition switch_off (sc : Scene) : Scene :=
  {| stored_interval := stored_interval sc; stored_run_after_reload := Some false |}.

Definition double_run_script (ov : Override) (h : Host) : result unit * Host :=
  match text_at h (edit_text ov) with
  | None => (Raise (RuntimeError "Operator bpy.ops.text.run_script.poll() failed, context is incorrect"), h)
  | Some text =>
      if name text =? "broken.py"
      then (Raise (RuntimeError "Python script failed, check the message in the system console"), h)
      else if name text =? "switch_off.py"
      then (Ok tt,
            with_data_scenes (update (window_scene (ov_window ov)) switch_off (data_scenes h)) h)
      else if name text =? "selfdel.py"
      then (Ok tt, with_data_texts (remove_ref (edit_text ov) (data_texts h)) h)
      else (Ok tt, h)
  end.

Definition double_ops : TextOps :=
  {| text_reload := double_reload; text_run_script := double_run_script |}.

Definition editor_window : Window :=
  {| screen := {| areas :=
       [ {| area_type := "VIEW_3D"; regions := [ {| region_type := "WINDOW" |} ] |};
         {| area_type := "TEXT_EDITOR";
            regions := [ {| region_type := "HEADER" |}; {| region_type := "WINDOW" |} ] |} ] |};
     window_scene := 1 |}.

Definition viewport_window : Window :=
  {| screen := {| areas :=
       [ {| area_type := "VIEW_3D"; regions := [ {| region_type := "WINDOW" |} ] |};
         {| area_type := "TEXT_EDITOR"; regions := [ {| region_type := "HEADER" |} ] |} ] |};
     window_scene := 1 |}.

(** The editor [find_text_editor] finds in [editor_window]. *)
Definition the_editor : EditorCtx :=
  (editor_window,
   {| area_type := "TEXT_EDITOR";
      regions := [ {| region_type := "HEADER" |}; {| region_type := "WINDOW" |} ] |},
   {| region_type := "WINDOW" |}).

Definition registered_types : SceneType :=
  {| ars_check_interval := Some interval_property;
     ars_run_after_reload := Some run_after_reload_property |}.

Definition unregistered_types : SceneType :=
  {| ars_check_interval := None; ars_run_after_reload := None |}.

(** Text objects numbered from 0 in the collection's order. *)
Definition numbered {A : Type} (l : list A) : list (nat * A) :=
  combine (seq 0 (List.length l)) l.

(** A host with one scene, object 1, which is the scene of the context and
    of the windows above. *)
Definition mk_host (sc : Scene) (ty : SceneType) (ws : list Window) (ts : list Text) : Host :=
  {| context_scene := Some 1;
     data_scenes := [(1, sc)];
     types_Scene := ty;
     wm_windows := ws;
     data_texts := numbered ts;
     app_timers := [];
     registered_classes := [];
     types_TEXT_MT_text := Some [] |}.

Definition doc (nm path : string) (modified : bool) : Text :=
  {| name := nm; filepath := path; is_modified := modified |}.

(** The first scenario of the specification: interval 0.5, option off. *)
Definition scenario_one : Host :=
  mk_host {| stored_interval := Some 0.5%float; stored_run_after_reload := Some false |}
          registered_types [editor_window]
          [doc "a.py" "/proj/a.py" true; doc "b.txt" "/proj/b.txt" true; doc "c.py" "/proj/c.py" false].

(** The second scenario: interval 1.0, option on. *)
Definition scenario_two : Host :=
  mk_host {| stored_interval := Some 1.0%float; stored_run_after_reload := Some true |}
          registered_types [editor_window]
          [doc "x.py" "/proj/X.PY" true].

(** A deleted file first, a live one after it; option on. *)
Definition scenario_gone : Host :=
  mk_host {| stored_interval := Some 2.0%float; stored_run_after_reload := Some true |}
          registered_types [viewport_window; editor_window]
          [doc "gone.py" "/proj/gone.py" true; doc "notes.txt" "/proj/notes.txt" true;
           doc "live.py" "/proj/live.py" true].

(** A script that turns the option off, then another modified script. *)
Definition scenario_switch : Host :=
  mk_host {| stored_interval := Some 0.5%float; stored_run_after_reload := Some true |}
          registered_types [editor_window]
          [doc "switch_off.py" "/proj/switch_off.py" true; doc "b.py" "/proj/b.py" true].

(** A script that removes its own text, then another modified script. *)
Definition scenario_selfdel : Host :=
  mk_host {| stored_interval := Some 2.0%float; stored_run_after_reload := Some true |}
          registered_types [editor_window]
          [doc "selfdel.py" "/proj/selfdel.py" true; doc "z.py" "/proj/z.py" true].

(** No text editor is shown. *)
Definition scenario_hidden : Host :=
  mk_host {| stored_interval := Some 2.0%float; stored_run_after_reload := Some true |}
          registered_types [viewport_window]
          [doc "a.py" "/proj/a.py" true].

(** The scene of the context has the option off; the editor is in a window
    that shows another scene, object 2, which has it on. *)
Definition scenario_two_scenes : Host :=
  {| context_scene := Some 2;
     data_scenes :=
       [(1, {| stored_interval := Some 0.5%float; stored_run_after_reload := Some true |});
        (2, {| stored_interval := Some 2.0%float; stored_run_after_reload := Some false |})];
     types_Scene := registered_types;
     wm_windows := [editor_window];
     data_texts := numbered [doc "a.py" "/proj/a.py" true];
     app_timers := [];
     registered_classes := [];
     types_TEXT_MT_text := Some [] |}.

(** A host in which the add-on was never registered. *)
Definition fresh_host : Host :=
  mk_host {| stored_interval := None; stored_run_after_reload := None |}
          unregistered_types [editor_window] [].


(** A script that fails when run, then another modified script; option on. *)
Definition scenario_broken : Host :=
  mk_host {| stored_interval := None; stored_run_after_reload := Some true |}
          registered_types [editor_window]
          [doc "broken.py" "/proj/broken.py" true; doc "b.py" "/proj/b.py" true].

(** Nothing to reload: a modified text file and an unmodified script. *)
Definition scenario_idle : Host :=
  mk_host {| stored_interval := Some 2.0%float; stored_run_after_reload := Some true |}
          registered_types [editor_window]
          [doc "b.txt" "/proj/b.txt" true; doc "c.py" "/proj/c.py" false].

(** ** Lines printed, host guarantees and read counts used in the statements *)

Definition reloaded_line (text_name_now : string) : Event :=
  EPrint ("AutoReloadScripts: reloaded " ++ text_name_now ++ "")%string.

Definition executed_line (text_name_now : string) : Event :=
  EPrint ("AutoReloadScripts: executed " ++ text_name_now ++ "")%string.

Definition reload_failed_line (text_name_now : string) (e : exn) : Event :=
  EPrint ("AutoReloadScripts: failed to reload " ++ text_name_now ++ (": " ++ str e))%string.

Definition execute_failed_line (text_name_now : string) (e : exn) : Event :=
  EPrint ("AutoReloadScripts: failed to execute " ++ text_name_now ++ (": " ++ str e))%string.

(** The [getattr] of line 44 happens when a scene is reachable. *)
Definition interval_reads (h : Host) : list Event :=
  match scene_of_context h with
  | Some _ => [EGetattr PROP_INTERVAL]
  | None => []
  end.

(** How often line 70 reads the option while the loop handles the text
    object [p], once it has got to it: once when [p] passes the test, its
    reload succeeds and the override yields a scene afterwards. *)
Definition run_option_reads (ops : TextOps) (editor_ctx : EditorCtx) (h : Host) (p : TextRef) : nat :=
  let hd := host_at ops editor_ctx h p in
  if qualifies hd p then
    match text_reload ops (mk_override editor_ctx p) hd with
    | (Ok _, h1) =>
        match scene_of_override (mk_override editor_ctx p) h1 with Some _ => 1 | None => 0 end
    | (Raise _, _) => 0
    end
  else 0.

(** Host guarantee: a reload that succeeds clears the modified flag of the
    document it was called on. *)
Definition reload_clears_flag (ops : TextOps) : Prop :=
  forall ov h h1,
    text_reload ops ov h = (Ok tt, h1) -> modified_flag h1 (edit_text ov) = false.

(** A property of the host that both operators preserve, whatever document
    they are called on and whether they succeed or raise. *)
Definition preserved_by (ops : TextOps) (P : Host -> Prop) : Prop :=
  forall ov h,
    P h -> P (snd (text_reload ops ov h)) /\ P (snd (text_run_script ops ov h)).

(** Host guarantee: no operator sets the modified flag of document [d] once
    it is clear. *)
Definition keeps_flag_clear (ops : TextOps) (d : TextRef) : Prop :=
  preserved_by ops (fun h => modified_flag h d = false).

(** Host guarantee: reloading a document does not switch the
    run-after-reload option on, in any window's scene. *)
Definition reload_keeps_option_off (ops : TextOps) : Prop :=
  forall ov ov' h,
    run_after_reload_enabled ov' h = false ->
    run_after_reload_enabled ov' (snd (text_reload ops ov h)) = false.

(** Host guarantee for a tick started in [h]: the operators neither create
    nor remove a text, nor reorder the collection, in a host they can lead
    to from [h]; [P] describes these hosts. *)
Definition keeps_documents (ops : TextOps) (h : Host) : Prop :=
  exists P : Host -> Prop,
    P h /\ preserved_by ops P /\ forall h0, P h0 -> texts_of h0 = texts_of h.

(** ** Further observations of a trace and of the registries *)

(** The documents a trace calls [bpy.ops.text.reload] on, in the order of
    the calls. *)
Fixpoint reloaded_docs (t : list Event) : list TextRef :=
  match t with
  | [] => []
  | EReload d :: rest => d :: reloaded_docs rest
  | _ :: rest => reloaded_docs rest
  end.

(** The documents a trace calls [bpy.ops.text.run_script] on, in the order
    of the calls. *)
Fixpoint executed_docs (t : list Event) : list TextRef :=
  match t with
  | [] => []
  | ERunScript d :: rest => d :: executed_docs rest
  | _ :: rest => executed_docs rest
  end.



(** Whether the loop of a tick started in [h] runs the script of the text
    object [d], once it has got to it: it passes the test then, its reload
    succeeds and the option reads on afterwards. *)
Definition runs_script (ops : TextOps) (editor_ctx : EditorCtx) (h : Host) (d : TextRef) : bool :=
  let hd := host_at ops editor_ctx h d in
  qualifies hd d
  && match text_reload ops (mk_override editor_ctx d) hd with
     | (Ok _, h1) => run_after_reload_enabled (mk_override editor_ctx d) h1
     | (Raise _, _) => false
     end.

(** The interval [register] passes as [first_interval]: line 113 reads it
    after lines 99-108 have defined the property. *)
Definition registered_first_interval (h : Host) : float :=
  match scene_of_context h with
  | None => DEFAULT_CHECK_INTERVAL
  | Some sc =>
      match stored_interval sc with
      | Some v => v
      | None =>
          match ars_check_interval (types_Scene h) with
          | Some p => fp_default p
          | None => DEFAULT_CHECK_INTERVAL
          end
      end
  end.

(** The entries of [bpy.app.timers] for the add-on's callback. *)
Definition callback_timers (h : Host) : list Timer :=
  filter (fun t => timer_function t =? auto_reload_scripts_timer_id) (app_timers h).

(** The add-on has left no trace in the registries of [h]. *)
Definition addon_absent (h : Host) : Prop :=
  types_Scene h = {| ars_check_interval := None; ars_run_after_reload := None |}
  /\ is_timer_registered auto_reload_scripts_timer_id h = false
  /\ is_class_registered ARS_PT_ReloadPanel h = false
  /\ exists funcs, types_TEXT_MT_text h = Some funcs /\ ~ In ars_text_menu funcs.

(** The text objects of the host with their names. *)
Definition document_names (h : Host) : list (TextRef * string) :=
  map (fun entry => (fst entry, name (snd entry))) (data_texts h).

(** In a trace of the loop, a call of run_script comes after a call of
    reload on the same document. *)
Definition reload_precedes_run (t : list Event) : Prop :=
  forall t1 t2 d, t = t1 ++ ERunScript d :: t2 -> In (EReload d) t1.

(** * Proofs *)

(** ** The loop body and the loop *)

Lemma trace_of_triple {A} (r : result A) (h : Host) (t : list Event) :
  trace (r, h, t) = t.
Proof. reflexivity. Qed.

Lemma final_host_of_triple {A} (r : result A) (h : Host) (t : list Event) :
  final_host (r, h, t) = h.
Proof. reflexivity. Qed.

Lemma outcome_of_triple {A} (r : result A) (h : Host) (t : list Event) :
  outcome (r, h, t) = r.
Proof. reflexivity. Qed.

Lemma print_about_eq prefix p suffix h :
  print_about prefix p suffix h =
  match text_at h p with
  | Some text => (Ok tt, h, [EPrint (prefix ++ name text ++ suffix)%string])
  | None => (Raise text_removed, h, [])
  end.
Proof.
  unfold print_about, text_name, bind, get_host, ret, raise, print, emit.
  destruct (text_at h p); reflexivity.
Qed.

Section TimerFacts.

Variable ops : TextOps.

(** Lines 69-75.  When the text has been removed by the time its name is
    read, line 73 or line 75 raises [ReferenceError]; the one of line 73 is
    caught at line 74, and the handler raises it again at line 75. *)
Lemma run_after_reload_eq ov h :
  run_after_reload ops ov h =
  match scene_of_override ov h with
  | None => (Ok tt, h, [])
  | Some _ =>
      if run_after_reload_enabled ov h then
        match text_run_script ops ov h with
        | (Ok _, h2) =>
            match text_at h2 (edit_text ov) with
            | Some text =>
                (Ok tt, h2, [EGetattr PROP_RUN_SCRIPT; ERunScript (edit_text ov);
                             executed_line (name text)])
            | None =>
                (Raise text_removed, h2,
                 [EGetattr PROP_RUN_SCRIPT; ERunScript (edit_text ov)])
            end
        | (Raise e, h2) =>
            match text_at h2 (edit_text ov) with
            | Some text =>
                (Ok tt, h2, [EGetattr PROP_RUN_SCRIPT; ERunScript (edit_text ov);
                             execute_failed_line (name text) e])
            | None =>
                (Raise text_removed, h2,
                 [EGetattr PROP_RUN_SCRIPT; ERunScript (edit_text ov)])
            end
        end
      else (Ok tt, h, [EGetattr PROP_RUN_SCRIPT])
  end.
Proof.
  unfold run_after_reload, run_after_reload_enabled.
  unfold bind at 1. unfold get_host at 1.
  destruct (scene_of_override ov h) as [sc|]; [|reflexivity].
  unfold bind at 1. unfold emit at 1.
  destruct (getattr_run_after_reload (types_Scene h) sc false); [|reflexivity].
  unfold try_except, bind, call_op, except_Exception.
  destruct (text_run_script ops ov h) as [[[]|e] h2];
    rewrite print_about_eq; destruct (text_at h2 (edit_text ov)) eqn:Ht;
    try reflexivity; cbv iota beta; rewrite print_about_eq, Ht; reflexivity.
Qed.

(** When [run_after_reload] raises, the text is gone. *)
Lemma run_after_reload_raises ov h e :
  outcome (run_after_reload ops ov h) = Raise e ->
  e = text_removed
  /\ text_at (final_host (run_after_reload ops ov h)) (edit_text ov) = None.
Proof.
  rewrite run_after_reload_eq.
  destruct (scene_of_override ov h); [|discriminate].
  destruct (run_after_reload_enabled ov h); [|discriminate].
  destruct (text_run_script ops ov h) as [[[]|err] h2];
    destruct (text_at h2 (edit_text ov)) eqn:Ht;
    unfold outcome, final_host; simpl; intro H; try discriminate;
    injection H as <-; split; [reflexivity|exact Ht|reflexivity|exact Ht].
Qed.

(** Lines 56-79.  The line of line 77 and the one of line 79 read the name
    of the text: when the text has been removed, line 77 raises, line 78
    catches, line 79 raises again and nothing catches that. *)
Lemma reload_text_eq ed d h :
  reload_text ops ed d h =
  if qualifies h d then
    match text_reload ops (mk_override ed d) h with
    | (Ok _, h1) =>
        let r := run_after_reload ops (mk_override ed d) h1 in
        match text_at (final_host r) d with
        | Some text =>
            (Ok tt, final_host r, EReload d :: trace r ++ [reloaded_line (name text)])
        | None => (Raise text_removed, final_host r, EReload d :: trace r)
        end
    | (Raise e, h1) =>
        match text_at h1 d with
        | Some text => (Ok tt, h1, [EReload d; reload_failed_line (name text) e])
        | None => (Raise text_removed, h1, [EReload d])
        end
    end
  else (Ok tt, h, []).
Proof.
  unfold reload_text, qualifies.
  unfold bind at 1. unfold get_host at 1.
  destruct (text_at h d) as [attrs|]; [|reflexivity].
  destruct (should_reload attrs); [|reflexivity].
  unfold try_except, bind at 1, call_op, except_Exception. simpl edit_text.
  destruct (text_reload ops (mk_override ed d) h) as [[[]|e] h1].
  - cbv zeta. unfold bind.
    pose proof (run_after_reload_raises (mk_override ed d) h1) as Hraise.
    destruct (run_after_reload ops (mk_override ed d) h1) as [[[[]|e] h2] t2].
    + unfold final_host, trace. simpl. rewrite print_about_eq.
      destruct (text_at h2 d) eqn:Ht; [reflexivity|].
      cbv iota beta. rewrite print_about_eq, Ht. simpl. rewrite ?app_nil_r. reflexivity.
    + destruct (Hraise e eq_refl) as [_ Hgone]. unfold final_host in Hgone.
      simpl in Hgone. unfold final_host, trace. simpl.
      rewrite print_about_eq, Hgone. simpl. rewrite ?app_nil_r. reflexivity.
  - rewrite print_about_eq. destruct (text_at h1 d); reflexivity.
Qed.

(** The body ends normally exactly when the text is still there, where it
    has called an operator. *)
Lemma reload_text_outcome ed d h :
  outcome (reload_text ops ed d h) =
  if qualifies h d then
    match text_at (final_host (reload_text ops ed d h)) d with
    | Some _ => Ok tt
    | None => Raise text_removed
    end
  else Ok tt.
Proof.
  rewrite reload_text_eq.
  destruct (qualifies h d); [|reflexivity].
  destruct (text_reload ops (mk_override ed d) h) as [[[]|e] h1]; cbv zeta.
  - destruct (text_at (final_host (run_after_reload ops (mk_override ed d) h1)) d) eqn:Ht;
      rewrite outcome_of_triple, final_host_of_triple, Ht; reflexivity.
  - destruct (text_at h1 d) eqn:Ht;
      rewrite outcome_of_triple, final_host_of_triple, Ht; reflexivity.
Qed.

Lemma reload_text_alive ed d h :
  text_at (final_host (reload_text ops ed d h)) d <> None ->
  outcome (reload_text ops ed d h) = Ok tt.
Proof.
  intro H. rewrite reload_text_outcome.
  destruct (qualifies h d); [|reflexivity].
  destruct (text_at (final_host (reload_text ops ed d h)) d); [reflexivity|].
  contradiction.
Qed.

Lemma reload_text_raises ed d h e :
  outcome (reload_text ops ed d h) = Raise e -> e = text_removed.
Proof.
  rewrite reload_text_outcome.
  destruct (qualifies h d); [|discriminate].
  destruct (text_at (final_host (reload_text ops ed d h)) d); [discriminate|].
  intro H. injection H as <-. reflexivity.
Qed.

(** One more document: the body runs, then, unless it raised, the rest of
    the loop from the host the body left. *)
Lemma for_texts_cons ed d rest h :
  for_texts ops ed (d :: rest) h =
  match outcome (reload_text ops ed d h) with
  | Ok _ =>
      let r := for_texts ops ed rest (final_host (reload_text ops ed d h)) in
      (outcome r, final_host r, trace (reload_text ops ed d h) ++ trace r)
  | Raise e => (Raise e, final_host (reload_text ops ed d h), trace (reload_text ops ed d h))
  end.
Proof.
  simpl for_texts. unfold bind at 1.
  destruct (reload_text ops ed d h) as [[[[]|e] h1] t1];
    unfold outcome, final_host, trace; simpl; [|reflexivity].
  destruct (for_texts ops ed rest h1) as [[r2 h2] t2]. reflexivity.
Qed.

Lemma for_texts_nil ed h : for_texts ops ed [] h = (Ok tt, h, []).
Proof. reflexivity. Qed.

Lemma for_texts_app ed l1 : forall l2 h,
  for_texts ops ed (l1 ++ l2) h =
  match outcome (for_texts ops ed l1 h) with
  | Ok _ =>
      let r := for_texts ops ed l2 (final_host (for_texts ops ed l1 h)) in
      (outcome r, final_host r, trace (for_texts ops ed l1 h) ++ trace r)
  | Raise e => (Raise e, final_host (for_texts ops ed l1 h), trace (for_texts ops ed l1 h))
  end.
Proof.
  induction l1 as [|d rest IH]; intros l2 h.
  - simpl app. rewrite for_texts_nil. unfold outcome, final_host, trace. simpl.
    destruct (for_texts ops ed l2 h) as [[r2 h2] t2]. reflexivity.
  - rewrite <- app_comm_cons.
    rewrite (for_texts_cons ed d (rest ++ l2) h), (for_texts_cons ed d rest h).
    destruct (outcome (reload_text ops ed d h)) as [[]|e]; [|reflexivity].
    cbv zeta. rewrite IH.
    destruct (outcome (for_texts ops ed rest (final_host (reload_text ops ed d h))))
      as [[]|e] eqn:Hr; unfold outcome, final_host, trace in *; cbn [fst snd] in *;
      rewrite ?Hr; cbn [fst snd]; rewrite ?app_assoc; reflexivity.
Qed.

Lemma for_texts_raises ed docs : forall h e,
  outcome (for_texts ops ed docs h) = Raise e -> e = text_removed.
Proof.
  induction docs as [|d rest IH]; intros h e.
  - discriminate.
  - rewrite for_texts_cons.
    destruct (outcome (reload_text ops ed d h)) as [[]|e'] eqn:Hb.
    + cbv zeta. unfold outcome at 1. simpl. apply IH.
    + unfold outcome at 1. simpl. intro H. injection H as <-.
      exact (reload_text_raises ed d h e' Hb).
Qed.

(** The whole tick, in terms of the loop. *)
Lemma timer_eq h :
  auto_reload_scripts_timer ops h =
  match find_text_editor (wm_windows h) with
  | None => (Ok (current_interval h), h, interval_reads h)
  | Some ed =>
      let r := for_texts ops ed (texts_of h) h in
      (match outcome r with
       | Ok _ => Ok (current_interval h)
       | Raise e => Raise e
       end,
       final_host r, interval_reads h ++ trace r)
  end.
Proof.
  unfold auto_reload_scripts_timer, read_interval, current_interval, interval_reads.
  unfold bind, ret, get_host, emit.
  destruct (scene_of_context h) as [sc|];
    (destruct (find_text_editor (wm_windows h)) as [ed|]; [|reflexivity]);
    destruct (for_texts ops ed (texts_of h) h) as [[[[]|e] h1] t1];
    unfold outcome, final_host, trace; simpl; rewrite ?app_nil_r; reflexivity.
Qed.

Lemma timer_trace h :
  trace (auto_reload_scripts_timer ops h) =
  interval_reads h ++
  match find_text_editor (wm_windows h) with
  | None => []
  | Some ed => trace (for_texts ops ed (texts_of h) h)
  end.
Proof.
  rewrite timer_eq.
  destruct (find_text_editor (wm_windows h)); [reflexivity|].
  rewrite trace_of_triple, app_nil_r. reflexivity.
Qed.

Lemma timer_final_host h :
  final_host (auto_reload_scripts_timer ops h) =
  match find_text_editor (wm_windows h) with
  | None => h
  | Some ed => final_host (for_texts ops ed (texts_of h) h)
  end.
Proof.
  rewrite timer_eq.
  destruct (find_text_editor (wm_windows h)); reflexivity.
Qed.

Lemma timer_outcome h :
  outcome (auto_reload_scripts_timer ops h) =
  match find_text_editor (wm_windows h) with
  | None => Ok (current_interval h)
  | Some ed =>
      match outcome (for_texts ops ed (texts_of h) h) with
      | Ok _ => Ok (current_interval h)
      | Raise e => Raise e
      end
  end.
Proof.
  rewrite timer_eq.
  destruct (find_text_editor (wm_windows h)); reflexivity.
Qed.

End TimerFacts.

(** ** The text objects of a tick *)

Lemma before_split d l : In d l -> exists rest, l = before d l ++ d :: rest.
Proof.
  induction l as [|x r IH]; intro H.
  - contradiction.
  - simpl. destruct (Nat.eqb_spec x d) as [->|Hx].
    + exists r. reflexivity.
    + destruct H as [H|H]; [contradiction|].
      destruct (IH H) as [rest Hrest]. exists rest. simpl. f_equal. exact Hrest.
Qed.

Lemma before_not_in d l : ~ In d (before d l).
Proof.
  induction l as [|x r IH]; simpl.
  - intros [].
  - destruct (Nat.eqb_spec x d) as [->|Hx]; [intros []|].
    intros [H|H]; [contradiction|exact (IH H)].
Qed.

Lemma before_incl d l x : In x (before d l) -> In x l.
Proof.
  induction l as [|y r IH]; simpl; [intros []|].
  destruct (y =? d)%nat; [intros []|].
  intros [H|H]; [left; exact H|right; exact (IH H)].
Qed.

Lemma before_app d a b : ~ In d a -> before d (a ++ b) = a ++ before d b.
Proof.
  induction a as [|x r IH]; intro H.
  - reflexivity.
  - simpl. destruct (Nat.eqb_spec x d) as [->|Hx].
    + exfalso. apply H. left. reflexivity.
    + f_equal. apply IH. intro Hin. apply H. right. exact Hin.
Qed.

Lemma before_head d rest : before d (d :: rest) = [].
Proof. simpl. rewrite Nat.eqb_refl. reflexivity. Qed.

(** A text object that comes before [d2] has none of [d2] before it. *)
Lemma before_before d1 d2 l : In d1 (before d2 l) -> ~ In d2 (before d1 l).
Proof.
  induction l as [|x r IH]; simpl; [intros []|].
  destruct (Nat.eqb_spec x d2) as [->|H2]; [intros []|].
  intro H. destruct (Nat.eqb_spec x d1) as [->|H1]; [intros []|].
  destruct H as [H|H]; [contradiction|].
  intros [H'|H']; [contradiction|exact (IH H H')].
Qed.

Lemma NoDup_after {A} (a : list A) d rest : NoDup (a ++ d :: rest) -> ~ In d rest /\ NoDup rest.
Proof.
  intro H. split.
  - apply NoDup_remove_2 in H. intro Hin. apply H. apply in_or_app. right. exact Hin.
  - apply NoDup_app_remove_l in H. inversion H. assumption.
Qed.

Lemma texts_of_NoDup h : NoDup (texts_of h).
Proof. apply NoDup_nodup. Qed.

Lemma lookup_in {A} r (l : list (nat * A)) : In r (map fst l) <-> lookup r l <> None.
Proof.
  induction l as [|[k v] rest IH]; simpl.
  - split; [intros []|intro H; apply H; reflexivity].
  - destruct (Nat.eqb_spec r k) as [->|Hk].
    + split; [discriminate|left; reflexivity].
    + rewrite <- IH. split; [intros [H|H]; [symmetry in H; contradiction|exact H]|].
      intro H. right. exact H.
Qed.

(** The text objects of the collection are those that can be read. *)
Lemma texts_of_alive h d : In d (texts_of h) <-> text_at h d <> None.
Proof. unfold texts_of, text_at. rewrite nodup_In. apply lookup_in. Qed.

Lemma qualifies_alive h d : qualifies h d = true -> In d (texts_of h).
Proof.
  unfold qualifies. intro H. apply texts_of_alive.
  destruct (text_at h d); [discriminate|discriminate].
Qed.

(** ** Counting events *)

Lemma count_app e a b : count e (a ++ b) = count e a + count e b.
Proof. apply count_occ_app. Qed.

Lemma count_absent e t : ~ In e t -> count e t = 0.
Proof. apply count_occ_not_In. Qed.

Lemma count_present e t : 0 < count e t -> In e t.
Proof. intro H. apply (count_occ_In Event_eq_dec). exact H. Qed.

Ltac count_events :=
  unfold count, reloaded_line, executed_line, reload_failed_line, execute_failed_line,
    PROP_INTERVAL, PROP_RUN_SCRIPT;
  cbn [count_occ app];
  repeat match goal with
         | |- context [Event_eq_dec ?a ?b] =>
             destruct (Event_eq_dec a b); try discriminate
         end;
  try reflexivity; try congruence.

Section Counting.

Variable ops : TextOps.

Lemma run_after_reload_no_reload ov h d :
  count (EReload d) (trace (run_after_reload ops ov h)) = 0.
Proof.
  rewrite run_after_reload_eq.
  destruct (scene_of_override ov h); [|reflexivity].
  destruct (run_after_reload_enabled ov h);
    [destruct (text_run_script ops ov h) as [[[]|err] h2];
     destruct (text_at h2 (edit_text ov))|]; rewrite trace_of_triple;
    count_events.
Qed.

Lemma run_after_reload_no_interval_read ov h :
  count (EGetattr PROP_INTERVAL) (trace (run_after_reload ops ov h)) = 0.
Proof.
  rewrite run_after_reload_eq.
  destruct (scene_of_override ov h); [|reflexivity].
  destruct (run_after_reload_enabled ov h);
    [destruct (text_run_script ops ov h) as [[[]|err] h2];
     destruct (text_at h2 (edit_text ov))|]; rewrite trace_of_triple;
    count_events.
Qed.

Lemma run_after_reload_option_reads ov h :
  count (EGetattr PROP_RUN_SCRIPT) (trace (run_after_reload ops ov h)) =
  match scene_of_override ov h with Some _ => 1 | None => 0 end.
Proof.
  rewrite run_after_reload_eq.
  destruct (scene_of_override ov h); [|reflexivity].
  destruct (run_after_reload_enabled ov h);
    [destruct (text_run_script ops ov h) as [[[]|err] h2];
     destruct (text_at h2 (edit_text ov))|]; rewrite trace_of_triple;
    count_events.
Qed.

Lemma run_after_reload_runs ov h d :
  count (ERunScript d) (trace (run_after_reload ops ov h)) =
  if run_after_reload_enabled ov h && (edit_text ov =? d)%nat then 1 else 0.
Proof.
  rewrite run_after_reload_eq. unfold run_after_reload_enabled.
  destruct (scene_of_override ov h) as [sc|]; [|reflexivity].
  destruct (getattr_run_after_reload (types_Scene h) sc false); simpl andb.
  - destruct (Nat.eqb_spec (edit_text ov) d);
      destruct (text_run_script ops ov h) as [[[]|err] h2];
      destruct (text_at h2 (edit_text ov)); rewrite trace_of_triple;
      count_events.
  - rewrite trace_of_triple. count_events.
Qed.

(** The trace of the body: the reload call, what lines 69-75 do, and the
    line of line 77 or 79 when the name of the text can be read. *)
Lemma reload_text_trace ed d h :
  exists line,
    trace (reload_text ops ed d h) =
    if qualifies h d then
      match text_reload ops (mk_override ed d) h with
      | (Ok _, h1) =>
          EReload d :: trace (run_after_reload ops (mk_override ed d) h1)
            ++ match line with Some l => [EPrint l] | None => [] end
      | (Raise e, h1) =>
          EReload d :: match line with Some l => [EPrint l] | None => [] end
      end
    else [].
Proof.
  rewrite reload_text_eq.
  destruct (qualifies h d); [|exists None; reflexivity].
  destruct (text_reload ops (mk_override ed d) h) as [[[]|err] h1]; cbv zeta.
  - destruct (text_at (final_host (run_after_reload ops (mk_override ed d) h1)) d) as [text|].
    + exists (Some ("AutoReloadScripts: reloaded " ++ name text ++ "")%string). reflexivity.
    + exists None. rewrite trace_of_triple, app_nil_r. reflexivity.
  - destruct (text_at h1 d) as [text|].
    + exists (Some ("AutoReloadScripts: failed to reload " ++ name text
                    ++ (": " ++ str err))%string). reflexivity.
    + exists None. reflexivity.
Qed.

Lemma count_line e line :
  (forall l, e <> EPrint l) ->
  count e (match line with Some l => [EPrint l] | None => [] end) = 0.
Proof.
  intro H. destruct line as [l|]; [|reflexivity].
  unfold count. cbn [count_occ]. destruct (Event_eq_dec (EPrint l) e) as [Heq|]; [|reflexivity].
  exfalso. apply (H l). symmetry. exact Heq.
Qed.

Lemma reload_text_reloads ed d h d' :
  count (EReload d') (trace (reload_text ops ed d h)) =
  if qualifies h d && (d =? d')%nat then 1 else 0.
Proof.
  destruct (reload_text_trace ed d h) as [line ->].
  destruct (qualifies h d); [|reflexivity]. simpl andb.
  destruct (text_reload ops (mk_override ed d) h) as [[[]|err] h1].
  - change (EReload d :: ?t ++ ?u) with ([EReload d] ++ t ++ u).
    rewrite !count_app, run_after_reload_no_reload, count_line by discriminate.
    destruct (Nat.eqb_spec d d'); count_events.
  - change (EReload d :: ?u) with ([EReload d] ++ u).
    rewrite !count_app, count_line by discriminate.
    destruct (Nat.eqb_spec d d'); count_events.
Qed.

Lemma reload_text_runs ed d h d' :
  count (ERunScript d') (trace (reload_text ops ed d h)) =
  if qualifies h d then
    match text_reload ops (mk_override ed d) h with
    | (Ok _, h1) =>
        if run_after_reload_enabled (mk_override ed d) h1 && (d =? d')%nat then 1 else 0
    | (Raise _, _) => 0
    end
  else 0.
Proof.
  destruct (reload_text_trace ed d h) as [line ->].
  destruct (qualifies h d); [|reflexivity].
  destruct (text_reload ops (mk_override ed d) h) as [[[]|err] h1].
  - change (EReload d :: ?t ++ ?u) with ([EReload d] ++ t ++ u).
    rewrite !count_app, run_after_reload_runs, count_line by discriminate.
    simpl edit_text.
    destruct (run_after_reload_enabled (mk_override ed d) h1 && (d =? d')%nat);
      count_events.
  - change (EReload d :: ?u) with ([EReload d] ++ u).
    rewrite !count_app, count_line by discriminate. count_events.
Qed.

Lemma reload_text_no_interval_read ed d h :
  count (EGetattr PROP_INTERVAL) (trace (reload_text ops ed d h)) = 0.
Proof.
  destruct (reload_text_trace ed d h) as [line ->].
  destruct (qualifies h d); [|reflexivity].
  destruct (text_reload ops (mk_override ed d) h) as [[[]|err] h1].
  - change (EReload d :: ?t ++ ?u) with ([EReload d] ++ t ++ u).
    rewrite !count_app, run_after_reload_no_interval_read, count_line by discriminate.
    count_events.
  - change (EReload d :: ?u) with ([EReload d] ++ u).
    rewrite !count_app, count_line by discriminate. count_events.
Qed.

Lemma reload_text_option_reads ed d h :
  count (EGetattr PROP_RUN_SCRIPT) (trace (reload_text ops ed d h)) =
  if qualifies h d then
    match text_reload ops (mk_override ed d) h with
    | (Ok _, h1) =>
        match scene_of_override (mk_override ed d) h1 with Some _ => 1 | None => 0 end
    | (Raise _, _) => 0
    end
  else 0.
Proof.
  destruct (reload_text_trace ed d h) as [line ->].
  destruct (qualifies h d); [|reflexivity].
  destruct (text_reload ops (mk_override ed d) h) as [[[]|err] h1].
  - change (EReload d :: ?t ++ ?u) with ([EReload d] ++ t ++ u).
    rewrite !count_app, run_after_reload_option_reads, count_line by discriminate.
    destruct (scene_of_override (mk_override ed d) h1); count_events.
  - change (EReload d :: ?u) with ([EReload d] ++ u).
    rewrite !count_app, count_line by discriminate. count_events.
Qed.

(** The trace of the loop, text by text. *)
Lemma for_texts_trace_cons ed d rest h :
  trace (for_texts ops ed (d :: rest) h) =
  trace (reload_text ops ed d h)
    ++ match outcome (reload_text ops ed d h) with
       | Ok _ => trace (for_texts ops ed rest (final_host (reload_text ops ed d h)))
       | Raise _ => []
       end.
Proof.
  rewrite for_texts_cons.
  destruct (outcome (reload_text ops ed d h)); [reflexivity|].
  rewrite trace_of_triple, app_nil_r. reflexivity.
Qed.

Lemma for_texts_trace_app ed l1 l2 h :
  trace (for_texts ops ed (l1 ++ l2) h) =
  trace (for_texts ops ed l1 h)
    ++ match outcome (for_texts ops ed l1 h) with
       | Ok _ => trace (for_texts ops ed l2 (final_host (for_texts ops ed l1 h)))
       | Raise _ => []
       end.
Proof.
  rewrite for_texts_app.
  destruct (outcome (for_texts ops ed l1 h)); [reflexivity|].
  rewrite trace_of_triple, app_nil_r. reflexivity.
Qed.

(** A text object the loop does not visit is neither reloaded nor run. *)
Lemma for_texts_skips ed docs d :
  ~ In d docs ->
  forall h,
    count (EReload d) (trace (for_texts ops ed docs h)) = 0
    /\ count (ERunScript d) (trace (for_texts ops ed docs h)) = 0.
Proof.
  induction docs as [|x rest IH]; intros Hnot h.
  - split; reflexivity.
  - assert (Hx : x <> d) by (intro; apply Hnot; left; assumption).
    assert (Hrest : ~ In d rest) by (intro; apply Hnot; right; assumption).
    rewrite for_texts_trace_cons.
    rewrite !count_app, reload_text_reloads, reload_text_runs.
    apply Nat.eqb_neq in Hx. rewrite Hx, !andb_false_r.
    assert (Hbody : (if qualifies h x then
                       match text_reload ops (mk_override ed x) h with
                       | (Ok _, h1) =>
                           if run_after_reload_enabled (mk_override ed x) h1 && false
                           then 1 else 0
                       | (Raise _, _) => 0
                       end
                     else 0) = 0).
    { destruct (qualifies h x); [|reflexivity].
      destruct (text_reload ops (mk_override ed x) h) as [[[]|err] h1];
        rewrite ?andb_false_r; reflexivity. }
    rewrite Hbody.
    destruct (outcome (reload_text ops ed x h)); [|split; reflexivity].
    destruct (IH Hrest (final_host (reload_text ops ed x h))) as [-> ->].
    split; reflexivity.
Qed.

Lemma for_texts_no_interval_read ed docs :
  forall h, count (EGetattr PROP_INTERVAL) (trace (for_texts ops ed docs h)) = 0.
Proof.
  induction docs as [|x rest IH]; intro h.
  - reflexivity.
  - rewrite for_texts_trace_cons, count_app, reload_text_no_interval_read.
    destruct (outcome (reload_text ops ed x h)); [apply IH|reflexivity].
Qed.

(** The trace of the loop, split at the text object [d]. *)
Lemma for_texts_split ed h docs d rest :
  docs = before d docs ++ d :: rest ->
  trace (for_texts ops ed docs h) =
  trace (for_texts ops ed (before d docs) h)
    ++ match outcome (for_texts ops ed (before d docs) h) with
       | Ok _ =>
           let hd := final_host (for_texts ops ed (before d docs) h) in
           trace (reload_text ops ed d hd)
             ++ match outcome (reload_text ops ed d hd) with
                | Ok _ => trace (for_texts ops ed rest (final_host (reload_text ops ed d hd)))
                | Raise _ => []
                end
       | Raise _ => []
       end.
Proof.
  intro Hsplit. rewrite Hsplit at 1.
  rewrite for_texts_trace_app, for_texts_trace_cons. reflexivity.
Qed.

(** How often the loop reloads and runs a text object of the collection:
    once when the loop gets to it and it passes the test. *)
Lemma for_texts_reloads ed h docs d :
  NoDup docs -> In d docs ->
  count (EReload d) (trace (for_texts ops ed docs h)) =
  if is_ok (outcome (for_texts ops ed (before d docs) h))
     && qualifies (final_host (for_texts ops ed (before d docs) h)) d
  then 1 else 0.
Proof.
  intros Hnd Hin. destruct (before_split d docs Hin) as [rest Hsplit].
  rewrite (for_texts_split ed h docs d rest Hsplit), count_app.
  destruct (for_texts_skips ed (before d docs) d (before_not_in d docs) h) as [-> _].
  destruct (outcome (for_texts ops ed (before d docs) h)); [|reflexivity].
  cbv zeta. simpl is_ok. simpl andb.
  rewrite count_app, reload_text_reloads, Nat.eqb_refl, andb_true_r.
  rewrite Hsplit in Hnd. destruct (NoDup_after _ _ _ Hnd) as [Hnot _].
  assert (Hrest : count (EReload d)
            match outcome (reload_text ops ed d
                             (final_host (for_texts ops ed (before d docs) h))) with
            | Ok _ =>
                trace (for_texts ops ed rest
                         (final_host (reload_text ops ed d
                            (final_host (for_texts ops ed (before d docs) h)))))
            | Raise _ => []
            end = 0).
  { destruct (outcome (reload_text ops ed d _)); [|reflexivity].
    apply (for_texts_skips ed rest d Hnot). }
  rewrite Hrest.
  destruct (qualifies (final_host (for_texts ops ed (before d docs) h)) d); reflexivity.
Qed.

Lemma for_texts_runs ed h docs d :
  NoDup docs -> In d docs ->
  count (ERunScript d) (trace (for_texts ops ed docs h)) =
  if is_ok (outcome (for_texts ops ed (before d docs) h))
     && qualifies (final_host (for_texts ops ed (before d docs) h)) d
  then
    match text_reload ops (mk_override ed d)
            (final_host (for_texts ops ed (before d docs) h)) with
    | (Ok _, h1) => if run_after_reload_enabled (mk_override ed d) h1 then 1 else 0
    | (Raise _, _) => 0
    end
  else 0.
Proof.
  intros Hnd Hin. destruct (before_split d docs Hin) as [rest Hsplit].
  rewrite (for_texts_split ed h docs d rest Hsplit), count_app.
  destruct (for_texts_skips ed (before d docs) d (before_not_in d docs) h) as [_ ->].
  destruct (outcome (for_texts ops ed (before d docs) h)); [|reflexivity].
  cbv zeta. simpl is_ok. simpl andb.
  rewrite count_app, reload_text_runs, Nat.eqb_refl.
  rewrite Hsplit in Hnd. destruct (NoDup_after _ _ _ Hnd) as [Hnot _].
  assert (Hrest : count (ERunScript d)
            match outcome (reload_text ops ed d
                             (final_host (for_texts ops ed (before d docs) h))) with
            | Ok _ =>
                trace (for_texts ops ed rest
                         (final_host (reload_text ops ed d
                            (final_host (for_texts ops ed (before d docs) h)))))
            | Raise _ => []
            end = 0).
  { destruct (outcome (reload_text ops ed d _)); [|reflexivity].
    apply (for_texts_skips ed rest d Hnot). }
  rewrite Hrest, Nat.add_0_r.
  destruct (qualifies (final_host (for_texts ops ed (before d docs) h)) d); [|reflexivity].
  destruct (text_reload ops (mk_override ed d)
              (final_host (for_texts ops ed (before d docs) h))) as [[[]|err] h1];
    [|reflexivity].
  rewrite andb_true_r. reflexivity.
Qed.

End Counting.

(** ** Finding the editor *)

Lemma find_all_false {A} (f : A -> bool) (l : list A) :
  (forall x, In x l -> f x = false) -> find f l = None.
Proof.
  induction l as [|x rest IH]; intro H.
  - reflexivity.
  - simpl. rewrite (H x (or_introl eq_refl)).
    apply IH. intros y Hy. apply H. right. exact Hy.
Qed.

Lemma find_in_areas_none w l :
  (forall a r, In a l -> In r (regions a) ->
               area_type a = "TEXT_EDITOR" -> region_type r <> "WINDOW") ->
  find_in_areas w l = None.
Proof.
  induction l as [|a rest IH]; intro H.
  - reflexivity.
  - simpl.
    assert (Hrest : find_in_areas w rest = None).
    { apply IH. intros a' r Ha'. apply H. right. exact Ha'. }
    destruct (String.eqb_spec (area_type a) "TEXT_EDITOR") as [Ht|Ht]; [|exact Hrest].
    unfold window_region. rewrite find_all_false; [exact Hrest|].
    intros r Hr. apply String.eqb_neq. apply (H a r); [left; reflexivity|exact Hr|exact Ht].
Qed.

Lemma find_text_editor_none ws :
  (forall w a r, In w ws -> In a (areas (screen w)) -> In r (regions a) ->
                 area_type a = "TEXT_EDITOR" -> region_type r <> "WINDOW") ->
  find_text_editor ws = None.
Proof.
  induction ws as [|w rest IH]; intro H.
  - reflexivity.
  - simpl. rewrite find_in_areas_none.
    + apply IH. intros w' a r Hw'. apply H. right. exact Hw'.
    + intros a r. apply H. left. reflexivity.
Qed.

(** The editor a tick finds is a text editor shown in one of the windows,
    with its content region. *)
Lemma find_in_areas_some w l ctx :
  find_in_areas w l = Some ctx ->
  exists a r, ctx = (w, a, r) /\ In a l /\ In r (regions a)
              /\ area_type a = "TEXT_EDITOR" /\ region_type r = "WINDOW".
Proof.
  induction l as [|a rest IH]; simpl; intro H.
  - discriminate.
  - destruct (String.eqb_spec (area_type a) "TEXT_EDITOR") as [Ht|Ht].
    + unfold window_region in H.
      destruct (find (fun r => region_type r =? "WINDOW") (regions a)) as [r|] eqn:Hf.
      * injection H as <-. apply find_some in Hf. destruct Hf as [Hin Hty].
        exists a, r. apply String.eqb_eq in Hty.
        split; [reflexivity|]. split; [left; reflexivity|]. split; [exact Hin|].
        split; [exact Ht|exact Hty].
      * destruct (IH H) as (a' & r & Hc & Hin & Hrest). exists a', r.
        split; [exact Hc|]. split; [right; exact Hin|exact Hrest].
    + destruct (IH H) as (a' & r & Hc & Hin & Hrest). exists a', r.
      split; [exact Hc|]. split; [right; exact Hin|exact Hrest].
Qed.

Lemma find_text_editor_some ws ctx :
  find_text_editor ws = Some ctx ->
  exists w a r, ctx = (w, a, r) /\ In w ws /\ In a (areas (screen w)) /\ In r (regions a)
                /\ area_type a = "TEXT_EDITOR" /\ region_type r = "WINDOW".
Proof.
  induction ws as [|w rest IH]; simpl; intro H.
  - discriminate.
  - destruct (find_in_areas w (areas (screen w))) as [c|] eqn:Hf.
    + injection H as <-. apply find_in_areas_some in Hf.
      destruct Hf as (a & r & Hc & Hrest).
      exists w, a, r. split; [exact Hc|]. split; [left; reflexivity|exact Hrest].
    + destruct (IH H) as (w' & a & r & Hc & Hin & Hrest).
      exists w', a, r. split; [exact Hc|]. split; [right; exact Hin|exact Hrest].
Qed.

Lemma no_visible_editor_iff h :
  no_visible_editor h <-> find_text_editor (wm_windows h) = None.
Proof.
  split.
  - intro H. apply find_text_editor_none. exact H.
  - intros H w a r Hw Ha Hr Ht Hwin.
    destruct (find_text_editor (wm_windows h)) as [c|] eqn:Hf; [discriminate|].
    clear H. revert Hf Hw. generalize (wm_windows h) as ws.
    induction ws as [|w' rest IH]; simpl; intros Hf Hw; [contradiction|].
    destruct (find_in_areas w' (areas (screen w'))) as [c|] eqn:Hfa; [discriminate|].
    destruct Hw as [->|Hw]; [|apply IH; assumption].
    clear IH Hf. revert Hfa Ha. generalize (areas (screen w)) as l.
    induction l as [|a' l IH]; simpl; intros Hfa Ha; [contradiction|].
    destruct Ha as [->|Ha].
    + rewrite Ht in Hfa. simpl in Hfa. unfold window_region in Hfa.
      destruct (find (fun r0 => region_type r0 =? "WINDOW") (regions a)) eqn:Hfr;
        [discriminate|].
      apply (find_none _ _ Hfr) in Hr. rewrite Hwin in Hr. discriminate.
    + apply IH; [|exact Ha].
      destruct (area_type a' =? "TEXT_EDITOR"); [|exact Hfa].
      destruct (window_region a'); [discriminate|exact Hfa].
Qed.

(** ** The tick *)

Lemma should_reload_false text :
  filepath text = "" \/ endswith (lower (filepath text)) ".py" = false
  \/ is_modified text = false ->
  should_reload text = false.
Proof.
  unfold should_reload. intros [H|[H|H]]; rewrite H.
  - reflexivity.
  - apply andb_false_intro1. apply andb_false_r.
  - apply andb_false_r.
Qed.

Lemma interval_reads_no_reload h d : count (EReload d) (interval_reads h) = 0.
Proof. unfold interval_reads. destruct (scene_of_context h); count_events. Qed.

Lemma interval_reads_no_run h d : count (ERunScript d) (interval_reads h) = 0.
Proof. unfold interval_reads. destruct (scene_of_context h); count_events. Qed.

Lemma interval_reads_no_option_read h :
  count (EGetattr PROP_RUN_SCRIPT) (interval_reads h) = 0.
Proof. unfold interval_reads. destruct (scene_of_context h); count_events. Qed.

(** The option line 70 reads is the one of the editor's window, whatever
    the text. *)
Lemma run_after_reload_enabled_window ed d d' h :
  run_after_reload_enabled (mk_override ed d) h
  = run_after_reload_enabled (mk_override ed d') h.
Proof. reflexivity. Qed.

(** How often a tick reloads and runs a text object of the collection. *)
Lemma timer_reloads ops h ed d :
  find_text_editor (wm_windows h) = Some ed ->
  In d (texts_of h) ->
  count (EReload d) (trace (auto_reload_scripts_timer ops h)) =
  if is_ok (outcome (for_texts ops ed (before d (texts_of h)) h))
     && qualifies (host_at ops ed h d) d
  then 1 else 0.
Proof.
  intros Hed Hin. rewrite timer_trace, Hed, count_app, interval_reads_no_reload.
  apply (for_texts_reloads ops ed h (texts_of h) d (texts_of_NoDup h) Hin).
Qed.

Lemma timer_runs ops h ed d :
  find_text_editor (wm_windows h) = Some ed ->
  In d (texts_of h) ->
  count (ERunScript d) (trace (auto_reload_scripts_timer ops h)) =
  if is_ok (outcome (for_texts ops ed (before d (texts_of h)) h))
     && qualifies (host_at ops ed h d) d
  then
    match text_reload ops (mk_override ed d) (host_at ops ed h d) with
    | (Ok _, h1) => if run_after_reload_enabled (mk_override ed d) h1 then 1 else 0
    | (Raise _, _) => 0
    end
  else 0.
Proof.
  intros Hed Hin. rewrite timer_trace, Hed, count_app, interval_reads_no_run.
  apply (for_texts_runs ops ed h (texts_of h) d (texts_of_NoDup h) Hin).
Qed.

(** A text object that is not in the collection when the tick starts is
    neither reloaded nor run. *)
Lemma timer_skips ops h d :
  ~ In d (texts_of h) ->
  count (EReload d) (trace (auto_reload_scripts_timer ops h)) = 0
  /\ count (ERunScript d) (trace (auto_reload_scripts_timer ops h)) = 0.
Proof.
  intro Hnot. rewrite timer_trace, !count_app, interval_reads_no_reload,
    interval_reads_no_run.
  destruct (find_text_editor (wm_windows h)) as [ed|]; [|split; reflexivity].
  apply (for_texts_skips ops ed (texts_of h) d Hnot).
Qed.

(** ** What the loop preserves *)

Section Preservation.

Variable ops : TextOps.
Variable P : Host -> Prop.
Hypothesis P_preserved : preserved_by ops P.

Lemma run_after_reload_preserves ov h :
  P h -> P (final_host (run_after_reload ops ov h)).
Proof.
  intro HP. rewrite run_after_reload_eq.
  destruct (scene_of_override ov h); [|exact HP].
  destruct (run_after_reload_enabled ov h); [|exact HP].
  pose proof (proj2 (P_preserved ov h HP)) as Hrun.
  destruct (text_run_script ops ov h) as [[[]|err] h2];
    destruct (text_at h2 (edit_text ov)); exact Hrun.
Qed.

Lemma reload_text_preserves ed x h :
  P h -> P (final_host (reload_text ops ed x h)).
Proof.
  intro HP. rewrite reload_text_eq.
  destruct (qualifies h x); [|exact HP].
  pose proof (proj1 (P_preserved (mk_override ed x) h HP)) as Hrel.
  destruct (text_reload ops (mk_override ed x) h) as [[[]|err] h1].
  - cbv zeta.
    pose proof (run_after_reload_preserves (mk_override ed x) h1 Hrel) as Hrun.
    destruct (text_at (final_host (run_after_reload ops (mk_override ed x) h1)) x);
      exact Hrun.
  - destruct (text_at h1 x); exact Hrel.
Qed.

Lemma for_texts_preserves ed docs :
  forall h, P h -> P (final_host (for_texts ops ed docs h)).
Proof.
  induction docs as [|x rest IH]; intros h HP.
  - exact HP.
  - rewrite for_texts_cons.
    pose proof (reload_text_preserves ed x h HP) as Hbody.
    destruct (outcome (reload_text ops ed x h)); [|exact Hbody].
    apply IH. exact Hbody.
Qed.

Lemma host_at_preserves ed h d : P h -> P (host_at ops ed h d).
Proof. apply for_texts_preserves. Qed.

Lemma timer_preserves h : P h -> P (final_host (auto_reload_scripts_timer ops h)).
Proof.
  intro HP. rewrite timer_final_host.
  destruct (find_text_editor (wm_windows h)) as [ed|]; [|exact HP].
  apply for_texts_preserves. exact HP.
Qed.

(** When the hosts the operators lead to have the texts of [h0], the loop
    over texts of [h0] lets no exception out. *)
Hypothesis P_texts : exists h0, forall h, P h -> texts_of h = texts_of h0.

Lemma reload_text_kept ed x h :
  P h -> In x (texts_of h) -> outcome (reload_text ops ed x h) = Ok tt.
Proof.
  intros HP Hin. apply reload_text_alive. apply texts_of_alive.
  destruct P_texts as [h0 Hsame].
  rewrite (Hsame _ (reload_text_preserves ed x h HP)), <- (Hsame _ HP). exact Hin.
Qed.

Lemma for_texts_kept ed docs :
  forall h, P h -> (forall x, In x docs -> In x (texts_of h)) ->
            outcome (for_texts ops ed docs h) = Ok tt.
Proof.
  destruct P_texts as [h0 Hsame].
  induction docs as [|x rest IH]; intros h HP Hin.
  - reflexivity.
  - rewrite for_texts_cons, (reload_text_kept ed x h HP (Hin x (or_introl eq_refl))).
    cbv zeta. rewrite outcome_of_triple. apply IH.
    + apply reload_text_preserves. exact HP.
    + intros y Hy.
      rewrite (Hsame _ (reload_text_preserves ed x h HP)), <- (Hsame _ HP).
      apply Hin. right. exact Hy.
Qed.

End Preservation.

Section KeptDocuments.

Variable ops : TextOps.
Variable h : Host.
Hypothesis kept : keeps_documents ops h.

Lemma kept_loop_ok ed docs :
  (forall x, In x docs -> In x (texts_of h)) ->
  outcome (for_texts ops ed docs h) = Ok tt.
Proof.
  destruct kept as (P & HP & Hpres & Hsame). intro Hin.
  apply (for_texts_kept ops P Hpres (ex_intro _ h Hsame) ed docs h HP Hin).
Qed.

Lemma kept_loop_texts ed docs :
  texts_of (final_host (for_texts ops ed docs h)) = texts_of h.
Proof.
  destruct kept as (P & HP & Hpres & Hsame).
  apply Hsame. apply (for_texts_preserves ops P Hpres). exact HP.
Qed.

Lemma kept_reached ed d : In d (texts_of h) -> reached ops ed h d.
Proof.
  intro Hin. split; [exact Hin|]. split.
  - apply kept_loop_ok. intros x Hx. apply (before_incl d _ x Hx).
  - apply kept_loop_texts.
Qed.

Lemma kept_timer_ok : outcome (auto_reload_scripts_timer ops h) = Ok (current_interval h).
Proof.
  rewrite timer_outcome.
  destruct (find_text_editor (wm_windows h)) as [ed|]; [|reflexivity].
  rewrite (kept_loop_ok ed (texts_of h)); [reflexivity|]. intros x Hx. exact Hx.
Qed.

Lemma kept_timer_texts :
  texts_of (final_host (auto_reload_scripts_timer ops h)) = texts_of h.
Proof.
  rewrite timer_final_host.
  destruct (find_text_editor (wm_windows h)) as [ed|]; [|reflexivity].
  apply kept_loop_texts.
Qed.

End KeptDocuments.

Section OptionOff.

Variable ops : TextOps.

(** With the option off in the scene of the editor's window and a reload
    that leaves it off, the loop runs no script and the option stays off. *)
Lemma reload_text_option_off ed x h :
  reload_keeps_option_off ops ->
  run_after_reload_enabled (mk_override ed x) h = false ->
  run_after_reload_enabled (mk_override ed x) (final_host (reload_text ops ed x h)) = false
  /\ forall d, count (ERunScript d) (trace (reload_text ops ed x h)) = 0.
Proof.
  intros Hkeep Hoff. split.
  - rewrite reload_text_eq.
    destruct (qualifies h x); [|exact Hoff].
    pose proof (Hkeep (mk_override ed x) (mk_override ed x) h Hoff) as Hrel.
    destruct (text_reload ops (mk_override ed x) h) as [[[]|err] h1].
    + simpl in Hrel. cbv zeta.
      assert (Hrun : final_host (run_after_reload ops (mk_override ed x) h1) = h1).
      { rewrite run_after_reload_eq, Hrel.
        destruct (scene_of_override (mk_override ed x) h1); reflexivity. }
      rewrite Hrun. destruct (text_at h1 x); exact Hrel.
    + simpl in Hrel. destruct (text_at h1 x); exact Hrel.
  - intro d. rewrite reload_text_runs.
    destruct (qualifies h x); [|reflexivity].
    pose proof (Hkeep (mk_override ed x) (mk_override ed x) h Hoff) as Hrel.
    destruct (text_reload ops (mk_override ed x) h) as [[[]|err] h1]; [|reflexivity].
    simpl in Hrel. rewrite Hrel. reflexivity.
Qed.

Lemma for_texts_option_off ed docs :
  reload_keeps_option_off ops ->
  forall h,
    (forall x, run_after_reload_enabled (mk_override ed x) h = false) ->
    forall d, count (ERunScript d) (trace (for_texts ops ed docs h)) = 0.
Proof.
  intro Hkeep. induction docs as [|x rest IH]; intros h Hoff d.
  - reflexivity.
  - destruct (reload_text_option_off ed x h Hkeep (Hoff x)) as [Hoff' Hnone].
    rewrite for_texts_trace_cons, count_app, Hnone.
    destruct (outcome (reload_text ops ed x h)); [|reflexivity].
    apply IH. intro y. rewrite (run_after_reload_enabled_window ed y x). exact Hoff'.
Qed.

End OptionOff.

(** ** The host double keeps the guarantees *)

Lemma lookup_update {A} (f : A -> A) (l : list (nat * A)) k r :
  lookup r (update k f l) =
  if (k =? r)%nat then option_map f (lookup r l) else lookup r l.
Proof.
  induction l as [|[k' v] rest IH]; simpl.
  - destruct (k =? r)%nat; reflexivity.
  - destruct (Nat.eqb_spec k k') as [<-|Hk]; simpl.
    + destruct (Nat.eqb_spec r k) as [->|Hr].
      * rewrite Nat.eqb_refl. reflexivity.
      * exact IH.
    + destruct (Nat.eqb_spec r k') as [->|Hr].
      * apply Nat.eqb_neq in Hk. rewrite Hk. reflexivity.
      * exact IH.
Qed.

Lemma lookup_remove_ref {A} (l : list (nat * A)) k r :
  lookup r (remove_ref k l) = if (k =? r)%nat then None else lookup r l.
Proof.
  induction l as [|[k' v] rest IH]; simpl.
  - destruct (k =? r)%nat; reflexivity.
  - destruct (Nat.eqb_spec k k') as [<-|Hk]; simpl.
    + rewrite IH. destruct (Nat.eqb_spec k r) as [->|Hr].
      * reflexivity.
      * apply not_eq_sym in Hr. apply Nat.eqb_neq in Hr. rewrite Hr. reflexivity.
    + destruct (Nat.eqb_spec r k') as [->|Hr].
      * apply Nat.eqb_neq in Hk. rewrite Hk. reflexivity.
      * exact IH.
Qed.

Lemma map_fst_update {A} (f : A -> A) (l : list (nat * A)) k :
  map fst (update k f l) = map fst l.
Proof.
  induction l as [|[k' v] rest IH]; simpl; [reflexivity|].
  destruct (k =? k')%nat; simpl; rewrite IH; reflexivity.
Qed.

Lemma lookup_In {A} r (l : list (nat * A)) v : lookup r l = Some v -> In (r, v) l.
Proof.
  induction l as [|[k' v'] rest IH]; simpl; [discriminate|].
  destruct (Nat.eqb_spec r k') as [->|Hr].
  - intro H. injection H as ->. left. reflexivity.
  - intro H. right. exact (IH H).
Qed.

Lemma double_reload_clears_flag : reload_clears_flag double_ops.
Proof.
  intros ov h h1. simpl. unfold double_reload.
  destruct (text_at h (edit_text ov)) as [text|] eqn:Hn; [|discriminate].
  destruct (name text =? "gone.py"); [discriminate|].
  intro H. injection H as <-.
  unfold modified_flag, text_at in *. simpl.
  rewrite lookup_update, Nat.eqb_refl, Hn. reflexivity.
Qed.

Lemma double_keeps_flag_clear d : keeps_flag_clear double_ops d.
Proof.
  unfold keeps_flag_clear, preserved_by. intros ov h Hflag. simpl. split.
  - unfold double_reload.
    destruct (text_at h (edit_text ov)) as [text|]; [|exact Hflag].
    destruct (name text =? "gone.py"); [exact Hflag|].
    unfold modified_flag, text_at in *. simpl.
    rewrite lookup_update.
    destruct (edit_text ov =? d)%nat; [|exact Hflag].
    destruct (lookup d (data_texts h)); reflexivity.
  - unfold double_run_script.
    destruct (text_at h (edit_text ov)) as [text|]; [|exact Hflag].
    destruct (name text =? "broken.py"); [exact Hflag|].
    destruct (name text =? "switch_off.py"); [exact Hflag|].
    destruct (name text =? "selfdel.py"); [|exact Hflag].
    unfold modified_flag, text_at in *. simpl.
    rewrite lookup_remove_ref.
    destruct (edit_text ov =? d)%nat; [reflexivity|exact Hflag].
Qed.

Lemma double_reload_keeps_option_off : reload_keeps_option_off double_ops.
Proof.
  intros ov ov' h Hoff. simpl. unfold double_reload.
  destruct (text_at h (edit_text ov)) as [text|]; [|exact Hoff].
  destruct (name text =? "gone.py"); exact Hoff.
Qed.

Lemma document_names_update k b l :
  map (fun entry : nat * Text => (fst entry, name (snd entry)))
      (update k (set_is_modified b) l)
  = map (fun entry : nat * Text => (fst entry, name (snd entry))) l.
Proof.
  induction l as [|[k' v] rest IH]; simpl; [reflexivity|].
  destruct (k =? k')%nat; simpl; rewrite IH; reflexivity.
Qed.

(** Where no text is called [selfdel.py], the double's operators keep the
    text objects and their names. *)
Lemma double_keeps_names names :
  (forall p n, In (p, n) names -> n <> "selfdel.py") ->
  preserved_by double_ops (fun h => document_names h = names).
Proof.
  intros Hno ov h Hnames. simpl. split.
  - unfold double_reload.
    destruct (text_at h (edit_text ov)) as [text|]; [|exact Hnames].
    destruct (name text =? "gone.py"); [exact Hnames|].
    unfold document_names in *. simpl. rewrite document_names_update. exact Hnames.
  - unfold double_run_script.
    destruct (text_at h (edit_text ov)) as [text|] eqn:Ht; [|exact Hnames].
    destruct (name text =? "broken.py"); [exact Hnames|].
    destruct (name text =? "switch_off.py"); [exact Hnames|].
    destruct (String.eqb_spec (name text) "selfdel.py") as [Hself|]; [|exact Hnames].
    exfalso. apply (Hno (edit_text ov) (name text)); [|exact Hself].
    rewrite <- Hnames. unfold document_names.
    apply (in_map (fun entry : nat * Text => (fst entry, name (snd entry)))
             (data_texts h) (edit_text ov, text)).
    apply lookup_In. exact Ht.
Qed.

Lemma texts_of_names h h0 : document_names h0 = document_names h -> texts_of h0 = texts_of h.
Proof.
  unfold document_names, texts_of. intro H.
  apply (f_equal (map fst)) in H. rewrite !map_map in H. simpl in H.
  f_equal. exact H.
Qed.

Lemma double_keeps_documents h :
  (forall p n, In (p, n) (document_names h) -> n <> "selfdel.py") ->
  keeps_documents double_ops h.
Proof.
  intro Hno. exists (fun h0 => document_names h0 = document_names h).
  split; [reflexivity|]. split.
  - apply double_keeps_names. exact Hno.
  - intros h0. apply texts_of_names.
Qed.

(** ** The loop up to a text object and past it *)

Section LoopThrough.

Variable ops : TextOps.

(** The loop over [a] and then [x], when no exception has left it on [a]. *)
Lemma for_texts_snoc ed a x h :
  outcome (for_texts ops ed a h) = Ok tt ->
  for_texts ops ed (a ++ [x]) h =
  (outcome (reload_text ops ed x (final_host (for_texts ops ed a h))),
   final_host (reload_text ops ed x (final_host (for_texts ops ed a h))),
   trace (for_texts ops ed a h)
     ++ trace (reload_text ops ed x (final_host (for_texts ops ed a h)))).
Proof.
  intro Hok. rewrite for_texts_app, Hok. cbv zeta. rewrite for_texts_cons.
  destruct (outcome (reload_text ops ed x (final_host (for_texts ops ed a h))))
    as [[]|e]; reflexivity || (cbv zeta; rewrite for_texts_nil;
    rewrite !outcome_of_triple, !final_host_of_triple, !trace_of_triple, app_nil_r;
    reflexivity).
Qed.

(** The loop over [a], then [d], then [b], when the loop over [a] and the
    body on [d] end normally. *)
Lemma for_texts_through ed a d b h h1 t1 :
  outcome (for_texts ops ed a h) = Ok tt ->
  reload_text ops ed d (final_host (for_texts ops ed a h)) = (Ok tt, h1, t1) ->
  for_texts ops ed (a ++ d :: b) h =
  (outcome (for_texts ops ed b h1), final_host (for_texts ops ed b h1),
   trace (for_texts ops ed a h) ++ t1 ++ trace (for_texts ops ed b h1)).
Proof.
  intros Hok Hbody. rewrite for_texts_app, Hok. cbv zeta.
  rewrite for_texts_cons, Hbody, outcome_of_triple. cbv zeta.
  rewrite !outcome_of_triple, !final_host_of_triple, !trace_of_triple. reflexivity.
Qed.

(** The host the loop leaves, seen from the text object [d]. *)
Lemma for_texts_final_split ed h docs d rest :
  docs = before d docs ++ d :: rest ->
  outcome (for_texts ops ed (before d docs) h) = Ok tt ->
  final_host (for_texts ops ed docs h) =
  let b := reload_text ops ed d (final_host (for_texts ops ed (before d docs) h)) in
  match outcome b with
  | Ok _ => final_host (for_texts ops ed rest (final_host b))
  | Raise _ => final_host b
  end.
Proof.
  intros Hsplit Hok. rewrite Hsplit at 1.
  rewrite for_texts_app, Hok. cbv zeta. rewrite final_host_of_triple, for_texts_cons.
  destruct (outcome (reload_text ops ed d (final_host (for_texts ops ed (before d docs) h))));
    reflexivity.
Qed.

Lemma reload_text_final ed d h :
  final_host (reload_text ops ed d h) =
  if qualifies h d then
    match text_reload ops (mk_override ed d) h with
    | (Ok _, h1) => final_host (run_after_reload ops (mk_override ed d) h1)
    | (Raise _, h1) => h1
    end
  else h.
Proof.
  rewrite reload_text_eq.
  destruct (qualifies h d); [|reflexivity].
  destruct (text_reload ops (mk_override ed d) h) as [[[]|err] h1]; cbv zeta.
  - destruct (text_at (final_host (run_after_reload ops (mk_override ed d) h1)) d);
      reflexivity.
  - destruct (text_at h1 d); reflexivity.
Qed.

Lemma run_after_reload_final ov h :
  run_after_reload_enabled ov h = true ->
  final_host (run_after_reload ops ov h) = snd (text_run_script ops ov h).
Proof.
  intro Hon. rewrite run_after_reload_eq, Hon.
  unfold run_after_reload_enabled in Hon.
  destruct (scene_of_override ov h); [|discriminate].
  destruct (text_run_script ops ov h) as [[[]|err] h2];
    destruct (text_at h2 (edit_text ov)); reflexivity.
Qed.

(** How often the option is read in the loop, when no exception leaves it. *)
Lemma for_texts_option_reads ed h : forall b a,
  NoDup (a ++ b) ->
  (forall c, incl c (a ++ b) -> outcome (for_texts ops ed c h) = Ok tt) ->
  count (EGetattr PROP_RUN_SCRIPT)
        (trace (for_texts ops ed b (final_host (for_texts ops ed a h)))) =
  list_sum (map (fun d =>
                   let hd := final_host (for_texts ops ed (before d (a ++ b)) h) in
                   if qualifies hd d then
                     match text_reload ops (mk_override ed d) hd with
                     | (Ok _, h1) =>
                         match scene_of_override (mk_override ed d) h1 with
                         | Some _ => 1
                         | None => 0
                         end
                     | (Raise _, _) => 0
                     end
                   else 0) b).
Proof.
  induction b as [|x b' IH]; intros a Hnd Hok.
  - reflexivity.
  - assert (Hlist : a ++ x :: b' = (a ++ [x]) ++ b').
    { rewrite <- app_assoc. reflexivity. }
    assert (Hxa : ~ In x a).
    { apply NoDup_remove_2 in Hnd. intro Hin. apply Hnd. apply in_or_app. left. exact Hin. }
    assert (Ha : outcome (for_texts ops ed a h) = Ok tt).
    { apply Hok. intros y Hy. apply in_or_app. left. exact Hy. }
    assert (Hax : outcome (for_texts ops ed (a ++ [x]) h) = Ok tt).
    { apply Hok. rewrite Hlist. intros y Hy. apply in_or_app. left. exact Hy. }
    pose proof (for_texts_snoc ed a x h Ha) as Hsnoc.
    rewrite Hsnoc, outcome_of_triple in Hax.
    rewrite for_texts_trace_cons, Hax, count_app, reload_text_option_reads.
    cbn [map]. change (list_sum (?n :: ?l)) with (n + list_sum l). cbv zeta.
    rewrite (before_app x a (x :: b') Hxa), before_head, app_nil_r.
    f_equal.
    replace (final_host (reload_text ops ed x (final_host (for_texts ops ed a h))))
      with (final_host (for_texts ops ed (a ++ [x]) h))
      by (rewrite Hsnoc; reflexivity).
    rewrite Hlist. apply IH.
    + rewrite <- Hlist. exact Hnd.
    + rewrite <- Hlist. exact Hok.
Qed.

End LoopThrough.

(** The loop past a text object [d] whose body has ended normally: it goes
    on from the host the body left, and a later text object that it reaches
    is reloaded exactly when it passes the test then. *)
Lemma loop_goes_on (ops : TextOps) (h : Host) (ed : EditorCtx) (d : TextRef)
    (h1 : Host) (t1 : list Event) :
  find_text_editor (wm_windows h) = Some ed ->
  reached ops ed h d ->
  reload_text ops ed d (host_at ops ed h d) = (Ok tt, h1, t1) ->
  for_texts ops ed (before d (texts_of h) ++ [d]) h =
    (Ok tt, h1, trace (for_texts ops ed (before d (texts_of h)) h) ++ t1)
  /\ exists before_d after_d,
       trace (auto_reload_scripts_timer ops h) = before_d ++ t1 ++ after_d
       /\ forall d2,
            In d (before d2 (texts_of h)) ->
            reached ops ed h d2 ->
            count (EReload d2) after_d =
            if qualifies (host_at ops ed h d2) d2 then 1 else 0.
Proof.
  intros Hed (Hin1 & Hok1 & _) Hbody.
  unfold host_at in Hbody.
  split.
  - rewrite (for_texts_snoc ops ed _ d h Hok1), Hbody. reflexivity.
  - destruct (before_split d (texts_of h) Hin1) as [rest Hsplit].
    exists (interval_reads h ++ trace (for_texts ops ed (before d (texts_of h)) h)).
    exists (trace (for_texts ops ed rest h1)).
    split.
    + rewrite timer_trace, Hed. rewrite Hsplit at 1.
      rewrite (for_texts_through ops ed _ d rest h h1 _ Hok1 Hbody), trace_of_triple.
      rewrite <- app_assoc. reflexivity.
    + intros d2 H12 (Hin2 & Hok2 & _).
      assert (Hne : d <> d2).
      { intros ->. exact (before_not_in d2 _ H12). }
      assert (Hnot : ~ In d2 (before d (texts_of h))) by exact (before_before d d2 _ H12).
      assert (Hrest : In d2 rest).
      { rewrite Hsplit in Hin2. apply in_app_or in Hin2.
        destruct Hin2 as [Hin2|[Hin2|Hin2]]; [contradiction|contradiction|exact Hin2]. }
      assert (Hnd : NoDup rest).
      { pose proof (texts_of_NoDup h) as Hnd. rewrite Hsplit in Hnd.
        exact (proj2 (NoDup_after _ _ _ Hnd)). }
      assert (Hbefore2 : before d2 (texts_of h)
                         = before d (texts_of h) ++ d :: before d2 rest).
      { rewrite Hsplit at 1. rewrite (before_app d2 _ _ Hnot). simpl.
        apply Nat.eqb_neq in Hne. rewrite Hne. reflexivity. }
      rewrite (for_texts_reloads ops ed h1 rest d2 Hnd Hrest).
      unfold host_at in *. rewrite Hbefore2 in Hok2. rewrite Hbefore2.
      rewrite (for_texts_through ops ed _ d (before d2 rest) h h1 _ Hok1 Hbody) in *.
      rewrite outcome_of_triple in Hok2. rewrite final_host_of_triple, Hok2.
      reflexivity.
Qed.

(** ** What the specification says about a tick *)

(** C1 fails on the code: a tick can raise.  The script [selfdel.py] removes
    its own text when it is run.  Line 73 then reads [text.name] of a removed
    text and raises [ReferenceError]; line 74 catches it and line 75 reads
    the name again, inside the handler, and raises; line 78 catches that and
    line 79 reads the name once more, outside every [try]: the exception
    leaves the tick.  Both operators have been called, nothing has been
    printed, and the script that follows, which passes the test, is not
    reloaded. *)
Theorem timer_raises_when_script_removes_its_text :
  find_text_editor (wm_windows scenario_selfdel) = Some the_editor
  /\ qualifies scenario_selfdel 0 = true
  /\ qualifies scenario_selfdel 1 = true
  /\ outcome (auto_reload_scripts_timer double_ops scenario_selfdel) = Raise text_removed
  /\ trace (auto_reload_scripts_timer double_ops scenario_selfdel) =
       [EGetattr PROP_INTERVAL; EReload 0; EGetattr PROP_RUN_SCRIPT; ERunScript 0]
  /\ count (EReload 1) (trace (auto_reload_scripts_timer double_ops scenario_selfdel)) = 0.
Proof. repeat split; vm_compute; reflexivity. Qed.

(** C2: a tick never calls reload on a document that fails the test of
    line 57, that is, whose path is empty, or whose lowercased path does not
    end in [.py], or whose modified flag is off.  The document's attributes
    are the ones it has when the loop reaches it, which is when the code
    reads them. *)
Theorem unqualified_document_not_reloaded (ops : TextOps) (h : Host) (d : TextRef) :
  (forall ed text,
      find_text_editor (wm_windows h) = Some ed ->
      text_at (host_at ops ed h d) d = Some text ->
      filepath text = "" \/ endswith (lower (filepath text)) ".py" = false
      \/ is_modified text = false) ->
  count (EReload d) (trace (auto_reload_scripts_timer ops h)) = 0.
Proof.
  intro H.
  destruct (in_dec Nat.eq_dec d (texts_of h)) as [Hin|Hnot];
    [|exact (proj1 (timer_skips ops h d Hnot))].
  destruct (find_text_editor (wm_windows h)) as [ed|] eqn:Hed.
  - rewrite (timer_reloads ops h ed d Hed Hin).
    unfold qualifies.
    destruct (text_at (host_at ops ed h d) d) as [text|] eqn:Hn;
      [|rewrite andb_false_r; reflexivity].
    rewrite (should_reload_false text (H ed text eq_refl Hn)), andb_false_r. reflexivity.
  - rewrite timer_trace, Hed, app_nil_r. apply interval_reads_no_reload.
Qed.

Lemma unqualified_document_not_reloaded_witness :
  count (EReload 1) (trace (auto_reload_scripts_timer double_ops scenario_one)) = 0.
Proof.
  apply (unqualified_document_not_reloaded double_ops scenario_one 1).
  intros ed text Hed Hn.
  vm_compute in Hed. injection Hed as <-.
  vm_compute in Hn. injection Hn as <-.
  right. left. reflexivity.
Defined.

(** C3, as stated, fails: a qualifying document whose reload raises is
    reloaded once, but its modified flag is still set after the tick. *)
Lemma failed_reload_leaves_flag_set :
  (exists ed, find_text_editor (wm_windows scenario_gone) = Some ed)
  /\ qualifies scenario_gone 0 = true
  /\ count (EReload 0) (trace (auto_reload_scripts_timer double_ops scenario_gone)) = 1
  /\ modified_flag (final_host (auto_reload_scripts_timer double_ops scenario_gone)) 0 = true.
Proof.
  split; [eexists; reflexivity|].
  repeat split; vm_compute; reflexivity.
Qed.

(** C3, amended: with a visible editor, a document that the loop reaches
    and that passes the test of line 57 then is reloaded exactly once in the
    tick; and when that reload succeeds, its modified flag is clear after the
    tick, given the host's guarantees that a successful reload clears the
    flag and that no operator sets it again.  The loop reaches a document
    when no exception has left the loop before its turn and the collection
    of texts is the one the tick started with. *)
Theorem qualifying_document_reloaded_once
    (ops : TextOps) (h : Host) (ed : EditorCtx) (d : TextRef) :
  find_text_editor (wm_windows h) = Some ed ->
  reached ops ed h d ->
  qualifies (host_at ops ed h d) d = true ->
  count (EReload d) (trace (auto_reload_scripts_timer ops h)) = 1
  /\ forall h1,
       text_reload ops (mk_override ed d) (host_at ops ed h d) = (Ok tt, h1) ->
       reload_clears_flag ops ->
       keeps_flag_clear ops d ->
       modified_flag (final_host (auto_reload_scripts_timer ops h)) d = false.
Proof.
  intros Hed (Hin & Hok & _) Hq. split.
  - rewrite (timer_reloads ops h ed d Hed Hin), Hok, Hq. reflexivity.
  - intros h1 Hr Hclears Hkeep.
    rewrite timer_final_host, Hed.
    destruct (before_split d (texts_of h) Hin) as [rest Hsplit].
    rewrite (for_texts_final_split ops ed h (texts_of h) d rest Hsplit Hok). cbv zeta.
    fold (host_at ops ed h d).
    assert (Hbody : modified_flag (final_host (reload_text ops ed d (host_at ops ed h d))) d
                    = false).
    { rewrite reload_text_final, Hq, Hr.
      apply (run_after_reload_preserves ops _ Hkeep).
      apply (Hclears (mk_override ed d) _ _ Hr). }
    destruct (outcome (reload_text ops ed d (host_at ops ed h d))); [|exact Hbody].
    apply (for_texts_preserves ops _ Hkeep). exact Hbody.
Qed.

Lemma qualifying_document_reloaded_once_witness :
  count (EReload 0) (trace (auto_reload_scripts_timer double_ops scenario_one)) = 1
  /\ modified_flag (final_host (auto_reload_scripts_timer double_ops scenario_one)) 0 = false.
Proof.
  destruct (qualifying_document_reloaded_once double_ops scenario_one the_editor 0)
    as [Hcount Hflag].
  - reflexivity.
  - split; [left; reflexivity|]. split; reflexivity.
  - reflexivity.
  - split; [exact Hcount|].
    eapply Hflag.
    + reflexivity.
    + exact double_reload_clears_flag.
    + exact (double_keeps_flag_clear 0).
Defined.



(** C5: when the loop reaches a document that passes the test, its reload
    succeeds and the run-after-reload option is on (read right after that
    reload, line 70, from the scene of the editor's window), the tick calls
    run_script exactly once for that document, from the host the reload
    left and with the override whose [edit_text] is that document. *)
Theorem script_run_once_after_successful_reload
    (ops : TextOps) (h : Host) (ed : EditorCtx) (d : TextRef) (h1 : Host) :
  find_text_editor (wm_windows h) = Some ed ->
  reached ops ed h d ->
  qualifies (host_at ops ed h d) d = true ->
  text_reload ops (mk_override ed d) (host_at ops ed h d) = (Ok tt, h1) ->
  run_after_reload_enabled (mk_override ed d) h1 = true ->
  count (ERunScript d) (trace (auto_reload_scripts_timer ops h)) = 1
  /\ final_host (for_texts ops ed (before d (texts_of h) ++ [d]) h)
     = snd (text_run_script ops (mk_override ed d) h1)
  /\ edit_text (mk_override ed d) = d.
Proof.
  intros Hed (Hin & Hok & _) Hq Hr Hon. split; [|split; [|reflexivity]].
  - rewrite (timer_runs ops h ed d Hed Hin), Hok, Hq, Hr, Hon. reflexivity.
  - rewrite (for_texts_snoc ops ed _ d h Hok), final_host_of_triple.
    fold (host_at ops ed h d).
    rewrite reload_text_final, Hq, Hr. apply run_after_reload_final. exact Hon.
Qed.

Lemma script_run_once_after_successful_reload_witness :
  count (ERunScript 0) (trace (auto_reload_scripts_timer double_ops scenario_two)) = 1.
Proof.
  refine (proj1 (script_run_once_after_successful_reload double_ops scenario_two
                   the_editor 0
                   (with_data_texts [(0, doc "x.py" "/proj/X.PY" false)] scenario_two)
                   _ _ _ _ _)).
  - reflexivity.
  - split; [left; reflexivity|]. split; reflexivity.
  - reflexivity.
  - reflexivity.
  - reflexivity.
Defined.

(** C6: when the run-after-reload option is off at the start of a tick, in
    the scene of the window that shows the editor, which is the scene line 70
    reads it from, the tick calls run_script for no document, however many
    reloads it performs and whether they succeed or raise; the host's reload
    is taken not to switch the option on. *)
Theorem no_script_run_when_option_off (ops : TextOps) (h : Host) :
  (forall ed d,
      find_text_editor (wm_windows h) = Some ed ->
      run_after_reload_enabled (mk_override ed d) h = false) ->
  reload_keeps_option_off ops ->
  forall d, count (ERunScript d) (trace (auto_reload_scripts_timer ops h)) = 0.
Proof.
  intros Hoff Hkeep d. rewrite timer_trace, count_app, interval_reads_no_run.
  destruct (find_text_editor (wm_windows h)) as [ed|] eqn:Hed; [|reflexivity].
  apply (for_texts_option_off ops ed _ Hkeep h).
  intro x. apply Hoff. reflexivity.
Qed.

Lemma no_script_run_when_option_off_witness :
  count (EReload 0) (trace (auto_reload_scripts_timer double_ops scenario_one)) = 1
  /\ forall d, count (ERunScript d) (trace (auto_reload_scripts_timer double_ops scenario_one)) = 0.
Proof.
  split.
  - reflexivity.
  - apply (no_script_run_when_option_off double_ops scenario_one).
    + intros ed d Hed. vm_compute in Hed. injection Hed as <-. reflexivity.
    + exact double_reload_keeps_option_off.
Defined.

(** C7: when no window shows a text editor with a content region, the tick
    calls neither reload nor run_script, leaves the host as it is, and
    returns the configured interval. *)
Theorem no_editor_no_work (ops : TextOps) (h : Host) :
  no_visible_editor h ->
  outcome (auto_reload_scripts_timer ops h) = Ok (current_interval h)
  /\ final_host (auto_reload_scripts_timer ops h) = h
  /\ forall d,
       count (EReload d) (trace (auto_reload_scripts_timer ops h)) = 0
       /\ count (ERunScript d) (trace (auto_reload_scripts_timer ops h)) = 0.
Proof.
  intro H. apply no_visible_editor_iff in H.
  rewrite timer_eq, H.
  repeat split.
  - apply interval_reads_no_reload.
  - apply interval_reads_no_run.
Qed.

Lemma no_editor_no_work_witness :
  outcome (auto_reload_scripts_timer double_ops scenario_hidden) = Ok 2.0%float
  /\ count (EReload 0) (trace (auto_reload_scripts_timer double_ops scenario_hidden)) = 0.
Proof.
  assert (Hhidden : no_visible_editor scenario_hidden).
  { intros w a r Hw Ha Hr Ht.
    simpl in Hw. destruct Hw as [<-|[]].
    simpl in Ha. destruct Ha as [<-|[<-|[]]].
    - discriminate Ht.
    - simpl in Hr. destruct Hr as [<-|[]]. discriminate. }
  destruct (no_editor_no_work double_ops scenario_hidden Hhidden) as (Hout & _ & Hcount).
  split.
  - exact Hout.
  - exact (proj1 (Hcount 0)).
Defined.

(** C8, as stated, fails.  The option is on when the tick starts; the first
    script, once run, turns it off; the second document is reloaded with
    success and is not run.  The option is read twice in this tick. *)
Lemma run_option_read_again_for_each_document :
  run_after_reload_enabled (mk_override the_editor 0) scenario_switch = true
  /\ qualifies scenario_switch 1 = true
  /\ count (EReload 1) (trace (auto_reload_scripts_timer double_ops scenario_switch)) = 1
  /\ modified_flag (final_host (auto_reload_scripts_timer double_ops scenario_switch)) 1 = false
  /\ count (ERunScript 0) (trace (auto_reload_scripts_timer double_ops scenario_switch)) = 1
  /\ count (ERunScript 1) (trace (auto_reload_scripts_timer double_ops scenario_switch)) = 0
  /\ count (EGetattr PROP_RUN_SCRIPT)
           (trace (auto_reload_scripts_timer double_ops scenario_switch)) = 2.
Proof. repeat split; vm_compute; reflexivity. Qed.

(** C8, amended: the interval is read at most once in a tick (once when a
    scene is reachable), before anything else, and a tick that returns
    returns the value read then.  The run-after-reload option is read inside
    the loop: when the operators keep the collection of texts, so that no
    exception leaves the tick, it is read once after each successful reload,
    and a reloaded document is run exactly when the option is on at that
    point. *)
Theorem configuration_read_points (ops : TextOps) (h : Host) :
  (forall v, outcome (auto_reload_scripts_timer ops h) = Ok v -> v = current_interval h)
  /\ (exists rest,
        trace (auto_reload_scripts_timer ops h) = interval_reads h ++ rest
        /\ count (EGetattr PROP_INTERVAL) rest = 0)
  /\ count (EGetattr PROP_INTERVAL) (trace (auto_reload_scripts_timer ops h)) =
     match scene_of_context h with Some _ => 1 | None => 0 end
  /\ forall ed,
       find_text_editor (wm_windows h) = Some ed ->
       keeps_documents ops h ->
       outcome (auto_reload_scripts_timer ops h) = Ok (current_interval h)
       /\ count (EGetattr PROP_RUN_SCRIPT) (trace (auto_reload_scripts_timer ops h)) =
          list_sum (map (run_option_reads ops ed h) (texts_of h))
       /\ forall d h1,
            In d (texts_of h) ->
            qualifies (host_at ops ed h d) d = true ->
            text_reload ops (mk_override ed d) (host_at ops ed h d) = (Ok tt, h1) ->
            count (ERunScript d) (trace (auto_reload_scripts_timer ops h)) =
            if run_after_reload_enabled (mk_override ed d) h1 then 1 else 0.
Proof.
  assert (Hreads : count (EGetattr PROP_INTERVAL) (interval_reads h) =
                   match scene_of_context h with Some _ => 1 | None => 0 end).
  { unfold interval_reads. destruct (scene_of_context h); count_events. }
  split; [|split; [|split]].
  - intros v. rewrite timer_outcome.
    destruct (find_text_editor (wm_windows h)) as [ed|].
    + destruct (outcome (for_texts ops ed (texts_of h) h)); [|discriminate].
      intro H. injection H as <-. reflexivity.
    + intro H. injection H as <-. reflexivity.
  - rewrite timer_trace. eexists. split; [reflexivity|].
    destruct (find_text_editor (wm_windows h)) as [ed|]; [|reflexivity].
    apply for_texts_no_interval_read.
  - rewrite timer_trace, count_app, Hreads.
    destruct (find_text_editor (wm_windows h)) as [ed|];
      [rewrite for_texts_no_interval_read|]; apply Nat.add_0_r.
  - intros ed Hed Hkept. split; [exact (kept_timer_ok ops h Hkept)|]. split.
    + rewrite timer_trace, Hed, count_app, interval_reads_no_option_read.
      apply (for_texts_option_reads ops ed h (texts_of h) [] (texts_of_NoDup h)).
      intros c Hincl. apply (kept_loop_ok ops h Hkept). exact Hincl.
    + intros d h1 Hin Hq Hr.
      rewrite (timer_runs ops h ed d Hed Hin), Hq, Hr.
      rewrite (kept_loop_ok ops h Hkept ed (before d (texts_of h)));
        [reflexivity|].
      intros x Hx. exact (before_incl d _ x Hx).
Qed.

(** ** Registration *)

Lemma remove_first_app_new x l :
  ~ In x l -> remove_first x (l ++ [x]) = Some l.
Proof.
  induction l as [|y rest IH]; simpl; intro H.
  - rewrite String.eqb_refl. reflexivity.
  - destruct (String.eqb_spec x y) as [->|Hne]; [exfalso; apply H; left; reflexivity|].
    rewrite IH; [reflexivity|]. intro Hin. apply H. right. exact Hin.
Qed.



(** [bpy.app.timers.unregister] finds an entry exactly when the function is
    registered. *)
Lemma remove_timer_none fn l :
  remove_timer fn l = None <-> existsb (fun t => timer_function t =? fn) l = false.
Proof.
  induction l as [|t rest IH]; simpl.
  - split; reflexivity.
  - destruct (timer_function t =? fn); simpl; [split; discriminate|].
    rewrite <- IH. destruct (remove_timer fn rest); split; congruence.
Qed.

(** The entry removed is the one just added when the function had none. *)
Lemma remove_timer_app_new fn l t :
  existsb (fun t0 => timer_function t0 =? fn) l = false ->
  timer_function t = fn ->
  remove_timer fn (l ++ [t]) = Some l.
Proof.
  intros Hnone Ht. induction l as [|t0 rest IH]; simpl in *.
  - rewrite Ht, String.eqb_refl. reflexivity.
  - destruct (timer_function t0 =? fn); [discriminate|].
    rewrite (IH Hnone). reflexivity.
Qed.

(** One entry of the function goes, the entries of other functions stay. *)
Lemma remove_timer_filter fn l l' :
  remove_timer fn l = Some l' ->
  List.length (filter (fun t => timer_function t =? fn) l)
  = S (List.length (filter (fun t => timer_function t =? fn) l'))
  /\ filter (fun t => negb (timer_function t =? fn)) l'
     = filter (fun t => negb (timer_function t =? fn)) l.
Proof.
  revert l'. induction l as [|t rest IH]; simpl; intros l' H.
  - discriminate.
  - destruct (timer_function t =? fn) eqn:E.
    + injection H as <-. split; reflexivity.
    + destruct (remove_timer fn rest) as [rest'|]; [|discriminate].
      injection H as <-. simpl. rewrite E. simpl.
      destruct (IH rest' eq_refl) as [Hlen Hother].
      split; [exact Hlen|]. rewrite Hother. reflexivity.
Qed.



Ltac run_registry :=
  cbv beta iota zeta delta
    [try_except timers_unregister timers_register bind get_host put_host raise ret
     set_ars_check_interval set_ars_run_after_reload except_ValueError for_each rev
     classes_to_register app unregister_class register_class is_class_registered
     is_timer_registered TEXT_MT_text_append TEXT_MT_text_remove read_interval emit
     with_app_timers with_types_Scene with_registered_classes with_TEXT_MT_text
     scene_of_context scene_at
     context_scene data_scenes types_Scene wm_windows data_texts app_timers
     registered_classes types_TEXT_MT_text ars_check_interval ars_run_after_reload
     outcome final_host trace fst snd].

(** [unregister] cannot complete while the panel class is not registered:
    [unregister_class] raises and nothing catches it. *)
Lemma unregister_needs_registered_class h :
  is_class_registered ARS_PT_ReloadPanel h = false ->
  exists msg, outcome (unregister h) = Raise (RuntimeError msg).
Proof.
  destruct h as [sc scs [pi pr] ws ts tm cs menu].
  unfold is_class_registered. cbn [registered_classes]. intro Hnot. eexists.
  unfold unregister. run_registry.
  destruct (remove_timer auto_reload_scripts_timer_id tm);
    run_registry; destruct pi; run_registry; destruct pr; run_registry;
    rewrite Hnot; reflexivity.
Qed.

(** C9 fails on the code: called when the add-on was never registered, and
    called a second time after one successful unregistration, [unregister]
    lets the [RuntimeError] of [unregister_class] escape. *)
Theorem unregister_raises_when_not_registered :
  outcome (unregister fresh_host) =
    Raise (RuntimeError
      "unregister_class(...):, missing bl_rna attribute from 'RNAMeta' instance (may not be registered)")
  /\ outcome ((register ;; unregister) fresh_host) = Ok tt
  /\ outcome ((register ;; unregister ;; unregister) fresh_host) =
    Raise (RuntimeError
      "unregister_class(...):, missing bl_rna attribute from 'RNAMeta' instance (may not be registered)").
Proof.
  repeat split; vm_compute; reflexivity.
Qed.

Lemma existsb_last {A} (f : A -> bool) (l : list A) (x : A) :
  f x = true -> existsb f (l ++ [x]) = true.
Proof.
  intro H. rewrite existsb_app. simpl. rewrite H. apply orb_true_r.
Qed.

(** What a successful [register] leaves behind. *)
Lemma register_result h h1 t1 :
  register h = (Ok tt, h1, t1) ->
  is_class_registered ARS_PT_ReloadPanel h = false
  /\ registered_classes h1 = registered_classes h ++ [ARS_PT_ReloadPanel]
  /\ app_timers h1 =
     app_timers h ++ [ {| timer_function := auto_reload_scripts_timer_id;
                          first_interval := registered_first_interval h;
                          persistent := true |} ]
  /\ exists funcs,
       types_TEXT_MT_text h = Some funcs
       /\ types_TEXT_MT_text h1 = Some (funcs ++ [ars_text_menu]).
Proof.
  destruct h as [sc scs [pi pr] ws ts tm cs menu].
  unfold register, registered_first_interval. run_registry.
  destruct (existsb (String.eqb ARS_PT_ReloadPanel) cs) eqn:Hcls;
    run_registry; [discriminate|].
  destruct pi; run_registry;
    (destruct sc as [r|]; run_registry; [destruct (lookup r scs) as [scn|]|]);
    run_registry;
    (destruct menu as [funcs|]; run_registry; [|discriminate]);
    destruct pr; run_registry; intro H; injection H as <- _;
    (split; [reflexivity|]); (split; [reflexivity|]);
    (split; [unfold getattr_interval; cbn [ars_check_interval];
             try destruct (stored_interval scn); reflexivity|]);
    exists funcs; split; reflexivity.
Qed.

(** [unregister] completes whenever the panel class is registered, and then
    both property definitions and the class are gone; the callback loses one
    timer entry and the menu one occurrence of the add-on's draw function,
    where they have one. *)
Lemma unregister_result h1 :
  is_class_registered ARS_PT_ReloadPanel h1 = true ->
  exists h2 t2,
    unregister h1 = (Ok tt, h2, t2)
    /\ types_Scene h2 = {| ars_check_interval := None; ars_run_after_reload := None |}
    /\ app_timers h2 =
       match remove_timer auto_reload_scripts_timer_id (app_timers h1) with
       | Some rest => rest
       | None => app_timers h1
       end
    /\ registered_classes h2 =
       filter (fun c => negb (ARS_PT_ReloadPanel =? c)) (registered_classes h1)
    /\ types_TEXT_MT_text h2 =
       option_map (fun funcs => match remove_first ars_text_menu funcs with
                                | Some funcs' => funcs'
                                | None => funcs
                                end) (types_TEXT_MT_text h1)
    /\ context_scene h2 = context_scene h1
    /\ data_scenes h2 = data_scenes h1
    /\ wm_windows h2 = wm_windows h1
    /\ data_texts h2 = data_texts h1.
Proof.
  destruct h1 as [sc scs [pi pr] ws ts tm cs menu].
  unfold is_class_registered. cbn [registered_classes]. intro Hcls.
  unfold unregister. run_registry.
  destruct (remove_timer auto_reload_scripts_timer_id tm) eqn:Htm;
    run_registry; destruct pi; run_registry; destruct pr; run_registry;
    rewrite Hcls; run_registry;
    (destruct menu as [funcs|]; run_registry; cbn [option_map];
     [destruct (remove_first ars_text_menu funcs); run_registry|]);
    do 2 eexists; (split; [reflexivity|]);
    repeat split.
Qed.




(** ** Further facts and the scenarios of the specification *)

(** The first text object is examined in the host the tick starts in. *)
Lemma host_at_first ops ed h d rest : texts_of h = d :: rest -> host_at ops ed h d = h.
Proof. intro H. unfold host_at. rewrite H, before_head. reflexivity. Qed.

(** When no operator makes a document pass the test of line 57, a document
    that fails it at the start of the tick is not reloaded. *)
Lemma unqualified_at_start_not_reloaded (ops : TextOps) (h : Host) (d : TextRef) :
  qualifies h d = false ->
  preserved_by ops (fun h0 => qualifies h0 d = false) ->
  count (EReload d) (trace (auto_reload_scripts_timer ops h)) = 0.
Proof.
  intros Hq Hkeep.
  destruct (in_dec Nat.eq_dec d (texts_of h)) as [Hin|Hnot];
    [|exact (proj1 (timer_skips ops h d Hnot))].
  destruct (find_text_editor (wm_windows h)) as [ed|] eqn:Hed.
  - rewrite (timer_reloads ops h ed d Hed Hin).
    rewrite (host_at_preserves ops _ Hkeep ed h d Hq), andb_false_r. reflexivity.
  - rewrite timer_trace, Hed, app_nil_r. apply interval_reads_no_reload.
Qed.

(** Whatever the host does, a document is not run when the option reads off
    right after its reload, or when its reload raises. *)
Lemma no_script_run_unless_option_reads_on (ops : TextOps) (h : Host) (d : TextRef) :
  (forall ed h1,
      find_text_editor (wm_windows h) = Some ed ->
      text_reload ops (mk_override ed d) (host_at ops ed h d) = (Ok tt, h1) ->
      run_after_reload_enabled (mk_override ed d) h1 = false) ->
  count (ERunScript d) (trace (auto_reload_scripts_timer ops h)) = 0.
Proof.
  intro H.
  destruct (in_dec Nat.eq_dec d (texts_of h)) as [Hin|Hnot];
    [|exact (proj2 (timer_skips ops h d Hnot))].
  destruct (find_text_editor (wm_windows h)) as [ed|] eqn:Hed.
  - rewrite (timer_runs ops h ed d Hed Hin).
    destruct (is_ok (outcome (for_texts ops ed (before d (texts_of h)) h))
              && qualifies (host_at ops ed h d) d); [|reflexivity].
    destruct (text_reload ops (mk_override ed d) (host_at ops ed h d))
      as [[[]|err] h1] eqn:Hr; [|reflexivity].
    rewrite (H ed h1 eq_refl Hr). reflexivity.
  - rewrite timer_trace, Hed, app_nil_r. apply interval_reads_no_run.
Qed.

Example lower_endswith_upper : endswith (lower "/proj/X.PY") ".py" = true.
Proof. reflexivity. Qed.

Example lower_endswith_longer : endswith (lower "/proj/a.pyc") ".py" = false.
Proof. reflexivity. Qed.

Example lower_endswith_short : endswith (lower "py") ".py" = false.
Proof. reflexivity. Qed.

(** Interval 0.5, option off, documents a.py (modified), b.txt (modified)
    and c.py (not modified): only a.py is reloaded, nothing is run, the
    delay is 0.5. *)
Example scenario_one_run :
  outcome (auto_reload_scripts_timer double_ops scenario_one) = Ok 0.5%float
  /\ trace (auto_reload_scripts_timer double_ops scenario_one) =
     [EGetattr PROP_INTERVAL; EReload 0; EGetattr PROP_RUN_SCRIPT;
      EPrint "AutoReloadScripts: reloaded a.py"].
Proof. split; reflexivity. Qed.

(** Interval 1.0, option on, one modified script whose reload succeeds:
    reload, then run, and the delay is 1.0. *)
Example scenario_two_run :
  outcome (auto_reload_scripts_timer double_ops scenario_two) = Ok 1.0%float
  /\ trace (auto_reload_scripts_timer double_ops scenario_two) =
     [EGetattr PROP_INTERVAL; EReload 0; EGetattr PROP_RUN_SCRIPT; ERunScript 0;
      EPrint "AutoReloadScripts: executed x.py";
      EPrint "AutoReloadScripts: reloaded x.py"].
Proof. split; reflexivity. Qed.

(** A script that fails when run does not stop the tick either. *)
Example broken_script_run :
  trace (auto_reload_scripts_timer double_ops scenario_broken) =
  [EGetattr PROP_INTERVAL;
   EReload 0; EGetattr PROP_RUN_SCRIPT; ERunScript 0;
   EPrint "AutoReloadScripts: failed to execute broken.py: Python script failed, check the message in the system console";
   EPrint "AutoReloadScripts: reloaded broken.py";
   EReload 1; EGetattr PROP_RUN_SCRIPT; ERunScript 1;
   EPrint "AutoReloadScripts: executed b.py";
   EPrint "AutoReloadScripts: reloaded b.py"].
Proof. reflexivity. Qed.

(** A deleted file first: its reload fails and is reported, the script after
    it is reloaded and run. *)
Example scenario_gone_run :
  outcome (auto_reload_scripts_timer double_ops scenario_gone) = Ok 2.0%float
  /\ trace (auto_reload_scripts_timer double_ops scenario_gone) =
     [EGetattr PROP_INTERVAL; EReload 0;
      EPrint "AutoReloadScripts: failed to reload gone.py: Could not reopen file";
      EReload 2; EGetattr PROP_RUN_SCRIPT; ERunScript 2;
      EPrint "AutoReloadScripts: executed live.py";
      EPrint "AutoReloadScripts: reloaded live.py"].
Proof. split; reflexivity. Qed.

(** * Further properties of the code *)

(** ** The test of line 57 *)

Lemma string_length_app (a b : string) :
  String.length (a ++ b)%string = String.length a + String.length b.
Proof.
  induction a as [|c a IH]; simpl; [reflexivity|]. rewrite IH. reflexivity.
Qed.

Lemma length_zero_empty (s : string) : String.length s = 0 -> s = "".
Proof. destruct s; [reflexivity|discriminate]. Qed.

Lemma substring_whole (s : string) : substring 0 (String.length s) s = s.
Proof.
  induction s as [|c s IH]; simpl; [reflexivity|]. rewrite IH. reflexivity.
Qed.

Lemma substring_skip (p s : string) (k : nat) :
  substring (String.length p) k (p ++ s)%string = substring 0 k s.
Proof.
  induction p as [|c p IH]; simpl; [reflexivity|exact IH].
Qed.

(** A string is cut in two at any position within it. *)
Lemma string_cut (s : string) : forall n,
  n <= String.length s ->
  exists a b, s = (a ++ b)%string /\ String.length a = n.
Proof.
  induction s as [|c s IH]; intros n Hn.
  - exists "", "". simpl in Hn. split; [reflexivity|simpl; lia].
  - destruct n as [|n].
    + exists "", (String c s). split; reflexivity.
    + simpl in Hn. destruct (IH n) as (a & b & -> & Hlen); [lia|].
      exists (String c a), b. split; [reflexivity|simpl; lia].
Qed.

Lemma string_app_inj (a : string) : forall b c d,
  (a ++ b)%string = (c ++ d)%string -> String.length a = String.length c ->
  a = c /\ b = d.
Proof.
  induction a as [|x a IH]; intros b c d Heq Hlen.
  - destruct c; [|discriminate]. split; [reflexivity|exact Heq].
  - destruct c as [|y c]; [discriminate|].
    simpl in Heq, Hlen. injection Heq as -> Heq.
    destruct (IH b c d Heq) as [-> ->]; [lia|]. split; reflexivity.
Qed.

(** [str.endswith]: the suffix is what the string ends with. *)
Lemma endswith_iff (s suffix : string) :
  endswith s suffix = true <-> exists p, s = (p ++ suffix)%string.
Proof.
  unfold endswith. split.
  - destruct (Nat.leb_spec (String.length suffix) (String.length s)) as [Hle|]; [|discriminate].
    intro H. apply String.eqb_eq in H.
    destruct (string_cut s (String.length s - String.length suffix)) as (a & b & Hs & Hlen);
      [lia|].
    exists a. rewrite Hs in H at 2. rewrite <- Hlen, substring_skip in H.
    assert (Hb : String.length b = String.length suffix).
    { rewrite Hs, string_length_app in Hlen, Hle. lia. }
    rewrite <- Hb, substring_whole in H. rewrite Hs, H. reflexivity.
  - intros [p ->]. rewrite string_length_app.
    destruct (Nat.leb_spec (String.length suffix) (String.length p + String.length suffix));
      [|lia].
    replace (String.length p + String.length suffix - String.length suffix)
      with (String.length p) by lia.
    rewrite substring_skip, substring_whole. apply String.eqb_refl.
Qed.

Lemma lower_app (a b : string) : lower (a ++ b) = (lower a ++ lower b)%string.
Proof.
  induction a as [|c a IH]; simpl; [reflexivity|]. rewrite IH. reflexivity.
Qed.

Lemma lower_length (s : string) : String.length (lower s) = String.length s.
Proof.
  induction s as [|c s IH]; simpl; [reflexivity|]. rewrite IH. reflexivity.
Qed.

Lemma lower_ascii_dot c : lower_ascii c = "."%char -> c = "."%char.
Proof.
  destruct c as [[] [] [] [] [] [] [] []]; vm_compute; intro H;
    solve [reflexivity | discriminate H].
Qed.

Lemma lower_ascii_p c : lower_ascii c = "p"%char -> c = "p"%char \/ c = "P"%char.
Proof.
  destruct c as [[] [] [] [] [] [] [] []]; vm_compute; intro H;
    solve [left; reflexivity | right; reflexivity | discriminate H].
Qed.

Lemma lower_ascii_y c : lower_ascii c = "y"%char -> c = "y"%char \/ c = "Y"%char.
Proof.
  destruct c as [[] [] [] [] [] [] [] []]; vm_compute; intro H;
    solve [left; reflexivity | right; reflexivity | discriminate H].
Qed.

(** The endings that lower to [.py]. *)
Lemma lower_is_py (ext : string) :
  lower ext = ".py" <-> In ext [".py"; ".pY"; ".Py"; ".PY"].
Proof.
  split.
  - destruct ext as [|c0 [|c1 [|c2 [|c3 rest]]]]; simpl; try discriminate.
    intro H. injection H as H0 H1 H2.
    apply lower_ascii_dot in H0. apply lower_ascii_p in H1. apply lower_ascii_y in H2.
    subst c0. destruct H1 as [-> | ->]; destruct H2 as [-> | ->]; auto.
  - simpl. intros [<-|[<-|[<-|[<-|[]]]]]; reflexivity.
Qed.

(** X1: a document passes the test of line 57 exactly when it is flagged as
    modified and its path ends in [.py], [.pY], [.Py] or [.PY].  The test
    [text.filepath and ...] of an empty path never decides: a path with such
    an ending is not empty. *)
Theorem should_reload_iff (text : Text) :
  should_reload text = true <->
  is_modified text = true
  /\ exists stem ext,
       filepath text = (stem ++ ext)%string
       /\ In ext [".py"; ".pY"; ".Py"; ".PY"].
Proof.
  unfold should_reload. rewrite !andb_true_iff, endswith_iff. split.
  - intros [[_ [p Hp]] Hmod]. split; [exact Hmod|].
    destruct (string_cut (filepath text) (String.length p)) as (stem & ext & Hs & Hlen).
    { rewrite <- (lower_length (filepath text)), Hp, string_length_app. lia. }
    exists stem, ext. split; [exact Hs|].
    apply lower_is_py.
    rewrite Hs, lower_app in Hp.
    apply string_app_inj in Hp; [apply Hp|].
    rewrite lower_length. exact Hlen.
  - intros [Hmod (stem & ext & Hs & Hext)].
    apply lower_is_py in Hext.
    split; [split|exact Hmod].
    + rewrite Hs. apply negb_true_iff, String.eqb_neq.
      intro Hempty.
      assert (Hlen : String.length (lower ext) = 3) by (rewrite Hext; reflexivity).
      rewrite lower_length in Hlen.
      apply (f_equal String.length) in Hempty.
      rewrite string_length_app in Hempty. simpl in Hempty. lia.
    + exists (lower stem). rewrite Hs, lower_app, Hext. reflexivity.
Qed.

(** ** [find_text_editor] returns the first visible editor *)

Lemma find_first_split {A} (f : A -> bool) (l : list A) (x : A) :
  find f l = Some x ->
  exists l1 l2, l = l1 ++ x :: l2 /\ f x = true /\ forall y, In y l1 -> f y = false.
Proof.
  induction l as [|y l IH]; simpl; intro H; [discriminate|].
  destruct (f y) eqn:Hy.
  - injection H as <-. exists [], l. split; [reflexivity|]. split; [exact Hy|].
    intros z [].
  - destruct (IH H) as (l1 & l2 & -> & Hx & Hbefore).
    exists (y :: l1), l2. split; [reflexivity|]. split; [exact Hx|].
    intros z [<-|Hz]; [exact Hy|apply Hbefore; exact Hz].
Qed.

Lemma find_in_areas_first w l w' a r :
  find_in_areas w l = Some (w', a, r) ->
  w' = w
  /\ area_type a = "TEXT_EDITOR"
  /\ window_region a = Some r
  /\ exists l1 l2,
       l = l1 ++ a :: l2
       /\ forall a', In a' l1 -> area_type a' = "TEXT_EDITOR" -> window_region a' = None.
Proof.
  induction l as [|x l IH]; simpl; intro H; [discriminate|].
  destruct (String.eqb_spec (area_type x) "TEXT_EDITOR") as [Hx|Hx].
  - destruct (window_region x) as [rx|] eqn:Hrx.
    + injection H as <- <- <-. repeat split; auto.
      exists [], l. split; [reflexivity|]. intros a' [].
    + destruct (IH H) as (Hw & Ha & Hr & l1 & l2 & -> & Hbefore).
      repeat split; auto.
      exists (x :: l1), l2. split; [reflexivity|].
      intros a' [<-|Ha'] Hty; [exact Hrx|apply Hbefore; assumption].
  - destruct (IH H) as (Hw & Ha & Hr & l1 & l2 & -> & Hbefore).
    repeat split; auto.
    exists (x :: l1), l2. split; [reflexivity|].
    intros a' [<-|Ha'] Hty; [contradiction|apply Hbefore; assumption].
Qed.

(** X2: the editor [find_text_editor] returns is the first one in
    enumeration order: no earlier window shows a text editor with a content
    region, no earlier area of the window found is such an editor, and the
    region is the first [WINDOW] region of the area. *)
Theorem find_text_editor_first (ws : list Window) (w : Window) (a : Area) (r : Region) :
  find_text_editor ws = Some (w, a, r) ->
  exists ws1 ws2 as1 as2 rs1 rs2,
    ws = ws1 ++ w :: ws2
    /\ (forall w' a' r',
          In w' ws1 -> In a' (areas (screen w')) -> In r' (regions a') ->
          area_type a' = "TEXT_EDITOR" -> region_type r' <> "WINDOW")
    /\ areas (screen w) = as1 ++ a :: as2
    /\ (forall a' r',
          In a' as1 -> In r' (regions a') ->
          area_type a' = "TEXT_EDITOR" -> region_type r' <> "WINDOW")
    /\ area_type a = "TEXT_EDITOR"
    /\ regions a = rs1 ++ r :: rs2
    /\ region_type r = "WINDOW"
    /\ forall r', In r' rs1 -> region_type r' <> "WINDOW".
Proof.
  induction ws as [|x ws IH]; simpl; intro H; [discriminate|].
  destruct (find_in_areas x (areas (screen x))) as [[[w' a'] r']|] eqn:Hx.
  - injection H as -> -> ->.
    destruct (find_in_areas_first _ _ _ _ _ Hx) as (-> & Ha & Hr & as1 & as2 & Has & Hbefore).
    unfold window_region in Hr.
    destruct (find_first_split _ _ _ Hr) as (rs1 & rs2 & Hrs & Hty & Hrbefore).
    exists [], ws, as1, as2, rs1, rs2.
    split; [reflexivity|]. split; [intros w0 a0 r0 []|]. split; [exact Has|].
    split.
    { intros a0 r0 Ha0 Hr0 Ht0.
      pose proof (Hbefore a0 Ha0 Ht0) as Hnone. unfold window_region in Hnone.
      apply String.eqb_neq. exact (find_none _ _ Hnone r0 Hr0). }
    split; [exact Ha|]. split; [exact Hrs|].
    split; [apply String.eqb_eq; exact Hty|].
    intros r0 Hr0. apply String.eqb_neq. apply Hrbefore. exact Hr0.
  - destruct (IH H) as (ws1 & ws2 & as1 & as2 & rs1 & rs2 & -> & Hnone & Hrest).
    exists (x :: ws1), ws2, as1, as2, rs1, rs2.
    split; [reflexivity|]. split; [|exact Hrest].
    intros w0 a0 r0 [Hw0|Hw0]; [subst w0|apply Hnone; exact Hw0].
    intros Ha0 Hr0 Ht0.
    assert (Hhost : no_visible_editor (mk_host {| stored_interval := None; stored_run_after_reload := None |}
                                  unregistered_types [x] [])).
    { apply no_visible_editor_iff. simpl. rewrite Hx. reflexivity. }
    apply (Hhost x a0 r0); [left; reflexivity|assumption..].
Qed.

Lemma find_text_editor_first_witness :
  exists ws1 ws2,
    wm_windows scenario_gone = ws1 ++ editor_window :: ws2
    /\ forall w' a' r',
         In w' ws1 -> In a' (areas (screen w')) -> In r' (regions a') ->
         area_type a' = "TEXT_EDITOR" -> region_type r' <> "WINDOW".
Proof.
  destruct (find_text_editor_first (wm_windows scenario_gone) editor_window
              {| area_type := "TEXT_EDITOR";
                 regions := [ {| region_type := "HEADER" |};
                              {| region_type := "WINDOW" |} ] |}
              {| region_type := "WINDOW" |})
    as (ws1 & ws2 & _ & _ & _ & _ & Hws & Hnone & _).
  - reflexivity.
  - exists ws1, ws2. split; [exact Hws|exact Hnone].
Defined.
(** ** The operator calls of a tick *)

Lemma reloaded_docs_app a b : reloaded_docs (a ++ b) = reloaded_docs a ++ reloaded_docs b.
Proof.
  induction a as [|e a IH]; simpl; [reflexivity|].
  destruct e; simpl; rewrite IH; reflexivity.
Qed.

Lemma executed_docs_app a b : executed_docs (a ++ b) = executed_docs a ++ executed_docs b.
Proof.
  induction a as [|e a IH]; simpl; [reflexivity|].
  destruct e; simpl; rewrite IH; reflexivity.
Qed.

Lemma interval_reads_calls h :
  reloaded_docs (interval_reads h) = [] /\ executed_docs (interval_reads h) = [].
Proof. unfold interval_reads. destruct (scene_of_context h); split; reflexivity. Qed.

Lemma line_calls (line : option string) :
  reloaded_docs (match line with Some l => [EPrint l] | None => [] end) = []
  /\ executed_docs (match line with Some l => [EPrint l] | None => [] end) = [].
Proof. destruct line; split; reflexivity. Qed.

Section Calls.

Variable ops : TextOps.

Lemma run_after_reload_calls ov h :
  reloaded_docs (trace (run_after_reload ops ov h)) = []
  /\ executed_docs (trace (run_after_reload ops ov h)) =
     if run_after_reload_enabled ov h then [edit_text ov] else [].
Proof.
  rewrite run_after_reload_eq. unfold run_after_reload_enabled.
  destruct (scene_of_override ov h) as [sc|]; [|split; reflexivity].
  destruct (getattr_run_after_reload (types_Scene h) sc false); [|split; reflexivity].
  destruct (text_run_script ops ov h) as [[[]|err] h2];
    destruct (text_at h2 (edit_text ov)); split; reflexivity.
Qed.

Lemma reload_text_calls ed d h :
  reloaded_docs (trace (reload_text ops ed d h)) = (if qualifies h d then [d] else [])
  /\ executed_docs (trace (reload_text ops ed d h)) =
     if qualifies h d
        && match text_reload ops (mk_override ed d) h with
           | (Ok _, h1) => run_after_reload_enabled (mk_override ed d) h1
           | (Raise _, _) => false
           end
     then [d] else [].
Proof.
  destruct (reload_text_trace ops ed d h) as [line ->].
  destruct (line_calls line) as [Hlr Hle].
  destruct (qualifies h d); [|split; reflexivity]. simpl andb.
  destruct (text_reload ops (mk_override ed d) h) as [[[]|err] h1].
  - destruct (run_after_reload_calls (mk_override ed d) h1) as [Hr He].
    simpl reloaded_docs. simpl executed_docs.
    rewrite reloaded_docs_app, executed_docs_app, Hr, He, Hlr, Hle. simpl.
    destruct (run_after_reload_enabled (mk_override ed d) h1); split; reflexivity.
  - simpl reloaded_docs. simpl executed_docs. rewrite Hlr, Hle. split; reflexivity.
Qed.

(** The calls of the loop, when no exception leaves it. *)
Lemma for_texts_calls ed h : forall b a,
  NoDup (a ++ b) ->
  (forall c, incl c (a ++ b) -> outcome (for_texts ops ed c h) = Ok tt) ->
  reloaded_docs (trace (for_texts ops ed b (final_host (for_texts ops ed a h)))) =
    filter (fun d => qualifies (final_host (for_texts ops ed (before d (a ++ b)) h)) d) b
  /\ executed_docs (trace (for_texts ops ed b (final_host (for_texts ops ed a h)))) =
    filter (fun d =>
              let hd := final_host (for_texts ops ed (before d (a ++ b)) h) in
              qualifies hd d
              && match text_reload ops (mk_override ed d) hd with
                 | (Ok _, h1) => run_after_reload_enabled (mk_override ed d) h1
                 | (Raise _, _) => false
                 end) b.
Proof.
  induction b as [|x b' IH]; intros a Hnd Hok.
  - split; reflexivity.
  - assert (Hlist : a ++ x :: b' = (a ++ [x]) ++ b').
    { rewrite <- app_assoc. reflexivity. }
    assert (Hxa : ~ In x a).
    { apply NoDup_remove_2 in Hnd. intro Hin. apply Hnd. apply in_or_app. left. exact Hin. }
    assert (Ha : outcome (for_texts ops ed a h) = Ok tt).
    { apply Hok. intros y Hy. apply in_or_app. left. exact Hy. }
    assert (Hax : outcome (for_texts ops ed (a ++ [x]) h) = Ok tt).
    { apply Hok. rewrite Hlist. intros y Hy. apply in_or_app. left. exact Hy. }
    pose proof (for_texts_snoc ops ed a x h Ha) as Hsnoc.
    rewrite Hsnoc, outcome_of_triple in Hax.
    rewrite for_texts_trace_cons, Hax, reloaded_docs_app, executed_docs_app.
    destruct (reload_text_calls ed x (final_host (for_texts ops ed a h))) as [-> ->].
    cbn [filter]. cbv zeta.
    rewrite (before_app x a (x :: b') Hxa), before_head, app_nil_r.
    replace (final_host (reload_text ops ed x (final_host (for_texts ops ed a h))))
      with (final_host (for_texts ops ed (a ++ [x]) h))
      by (rewrite Hsnoc; reflexivity).
    rewrite Hlist in Hnd, Hok.
    destruct (IH (a ++ [x]) Hnd Hok) as [IHr IHe].
    rewrite Hlist, IHr, IHe.
    split.
    + destruct (qualifies (final_host (for_texts ops ed a h)) x); reflexivity.
    + destruct (qualifies (final_host (for_texts ops ed a h)) x
                && match text_reload ops (mk_override ed x)
                           (final_host (for_texts ops ed a h)) with
                   | (Ok _, h1) => run_after_reload_enabled (mk_override ed x) h1
                   | (Raise _, _) => false
                   end); reflexivity.
Qed.

Lemma reload_precedes_run_app a b :
  reload_precedes_run a -> reload_precedes_run b -> reload_precedes_run (a ++ b).
Proof.
  intros Ha Hb t1 t2 d Heq.
  apply app_eq_app in Heq. destruct Heq as [l [[Hal Hrest]|[Ht1 Hbl]]].
  - destruct l as [|e l].
    + simpl in Hrest. destruct (Hb [] t2 d (eq_sym Hrest)).
    + simpl in Hrest. injection Hrest as <- _.
      apply (Ha t1 l d). exact Hal.
  - subst t1. apply in_or_app. right. apply (Hb l t2 d). exact Hbl.
Qed.

Lemma reload_precedes_run_without_run t :
  (forall d, ~ In (ERunScript d) t) -> reload_precedes_run t.
Proof.
  intros H t1 t2 d Heq. exfalso. apply (H d). rewrite Heq.
  apply in_or_app. right. left. reflexivity.
Qed.

Lemma reload_text_order ed d h :
  reload_precedes_run (trace (reload_text ops ed d h)).
Proof.
  intros t1 t2 d' Heq.
  assert (Hd' : d' = d).
  { destruct (Nat.eq_dec d d') as [Hdd|Hdd]; [symmetry; exact Hdd|exfalso].
    apply Nat.eqb_neq in Hdd.
    assert (Hz : count (ERunScript d') (trace (reload_text ops ed d h)) = 0).
    { rewrite reload_text_runs, Hdd. destruct (qualifies h d); [|reflexivity].
      destruct (text_reload ops (mk_override ed d) h) as [[[]|err] h1];
        rewrite ?andb_false_r; reflexivity. }
    apply (count_occ_not_In Event_eq_dec) in Hz. apply Hz.
    rewrite Heq. apply in_or_app. right. left. reflexivity. }
  subst d'. revert Heq.
  destruct (reload_text_trace ops ed d h) as [line ->].
  destruct (qualifies h d).
  - destruct (text_reload ops (mk_override ed d) h) as [[[]|err] h1];
      intro Heq; (destruct t1 as [|e t1]; [discriminate Heq|]);
      simpl in Heq; injection Heq as <- _; left; reflexivity.
  - intro Heq. destruct t1; discriminate Heq.
Qed.

Lemma for_texts_order ed docs :
  forall h, reload_precedes_run (trace (for_texts ops ed docs h)).
Proof.
  induction docs as [|x rest IH]; intro h.
  - intros t1 t2 d Heq. destruct t1; discriminate Heq.
  - rewrite for_texts_trace_cons.
    apply reload_precedes_run_app; [apply reload_text_order|].
    destruct (outcome (reload_text ops ed x h)); [apply IH|].
    intros t1 t2 d Heq. destruct t1; discriminate Heq.
Qed.

End Calls.

(** X3: when the operators keep the collection of texts, the reload calls
    of a tick are, in this order, the texts of [bpy.data.texts] that pass the
    test of line 57 when the loop reaches them, and the run_script calls
    are, in this order, those among them whose reload succeeded with the
    option on afterwards.  Texts are handled in the host's enumeration
    order. *)
Theorem calls_follow_enumeration_order (ops : TextOps) (h : Host) :
  keeps_documents ops h ->
  reloaded_docs (trace (auto_reload_scripts_timer ops h)) =
    match find_text_editor (wm_windows h) with
    | None => []
    | Some ed => filter (fun d => qualifies (host_at ops ed h d) d) (texts_of h)
    end
  /\ executed_docs (trace (auto_reload_scripts_timer ops h)) =
    match find_text_editor (wm_windows h) with
    | None => []
    | Some ed => filter (runs_script ops ed h) (texts_of h)
    end.
Proof.
  intro Hkept. rewrite timer_trace, reloaded_docs_app, executed_docs_app.
  destruct (interval_reads_calls h) as [-> ->].
  destruct (find_text_editor (wm_windows h)) as [ed|]; [|split; reflexivity].
  apply (for_texts_calls ops ed h (texts_of h) [] (texts_of_NoDup h)).
  intros c Hincl. apply (kept_loop_ok ops h Hkept). exact Hincl.
Qed.

Lemma calls_follow_enumeration_order_witness :
  reloaded_docs (trace (auto_reload_scripts_timer double_ops scenario_gone)) = [0; 2]
  /\ executed_docs (trace (auto_reload_scripts_timer double_ops scenario_gone)) = [2].
Proof.
  destruct (calls_follow_enumeration_order double_ops scenario_gone) as [Hr He].
  - apply double_keeps_documents.
    intros p n [H|[H|[H|[]]]]; injection H as _ <-; discriminate.
  - rewrite Hr, He. split; reflexivity.
Defined.

(** X4: in a tick, run_script is called on a document only after reload was
    called on that document, and each operator is called at most once per
    document. *)
Theorem run_only_after_reload (ops : TextOps) (h : Host) :
  (forall t1 t2 d,
      trace (auto_reload_scripts_timer ops h) = t1 ++ ERunScript d :: t2 ->
      In (EReload d) t1)
  /\ forall d,
       count (ERunScript d) (trace (auto_reload_scripts_timer ops h))
         <= count (EReload d) (trace (auto_reload_scripts_timer ops h))
       /\ count (EReload d) (trace (auto_reload_scripts_timer ops h)) <= 1.
Proof.
  split.
  - rewrite timer_trace.
    assert (Hreads : reload_precedes_run (interval_reads h)).
    { apply reload_precedes_run_without_run. intro d.
      apply (count_occ_not_In Event_eq_dec). apply interval_reads_no_run. }
    apply reload_precedes_run_app; [exact Hreads|].
    destruct (find_text_editor (wm_windows h)) as [ed|]; [apply for_texts_order|].
    intros t1 t2 d Heq. destruct t1; discriminate Heq.
  - intro d.
    destruct (in_dec Nat.eq_dec d (texts_of h)) as [Hin|Hnot].
    + destruct (find_text_editor (wm_windows h)) as [ed|] eqn:Hed.
      * rewrite (timer_runs ops h ed d Hed Hin), (timer_reloads ops h ed d Hed Hin).
        destruct (is_ok (outcome (for_texts ops ed (before d (texts_of h)) h))
                  && qualifies (host_at ops ed h d) d); [|lia].
        destruct (text_reload ops (mk_override ed d) (host_at ops ed h d))
          as [[[]|err] h1]; [|lia].
        destruct (run_after_reload_enabled (mk_override ed d) h1); lia.
      * rewrite timer_trace, Hed, app_nil_r, interval_reads_no_run,
          interval_reads_no_reload. lia.
    + destruct (timer_skips ops h d Hnot) as [-> ->]. lia.
Qed.

(** ** A script that fails *)

(** X5: when run_script raises for a document whose reload succeeded, and
    the document is still in the collection, the exception is caught and a
    line is printed, the document is still reported as reloaded, and the
    loop goes on from the host the failed call left: a later document that
    the loop reaches is reloaded exactly when it passes the test then. *)
Theorem script_failure_does_not_stop_the_tick
    (ops : TextOps) (h : Host) (ed : EditorCtx) (d : TextRef) (e : exn)
    (h1 h2 : Host) (text : Text) :
  find_text_editor (wm_windows h) = Some ed ->
  reached ops ed h d ->
  qualifies (host_at ops ed h d) d = true ->
  text_reload ops (mk_override ed d) (host_at ops ed h d) = (Ok tt, h1) ->
  run_after_reload_enabled (mk_override ed d) h1 = true ->
  text_run_script ops (mk_override ed d) h1 = (Raise e, h2) ->
  text_at h2 d = Some text ->
  for_texts ops ed (before d (texts_of h) ++ [d]) h =
    (Ok tt, h2,
     trace (for_texts ops ed (before d (texts_of h)) h)
       ++ [EReload d; EGetattr PROP_RUN_SCRIPT; ERunScript d;
           execute_failed_line (name text) e; reloaded_line (name text)])
  /\ exists before_d after_d,
       trace (auto_reload_scripts_timer ops h) =
         before_d
         ++ [EReload d; EGetattr PROP_RUN_SCRIPT; ERunScript d;
             execute_failed_line (name text) e; reloaded_line (name text)]
         ++ after_d
       /\ forall d2,
            In d (before d2 (texts_of h)) ->
            reached ops ed h d2 ->
            count (EReload d2) after_d =
            if qualifies (host_at ops ed h d2) d2 then 1 else 0.
Proof.
  intros Hed Hreached Hq Hr Hon Hrun Halive.
  apply (loop_goes_on ops h ed d h2 _ Hed Hreached).
  rewrite reload_text_eq, Hq, Hr. cbv zeta.
  rewrite run_after_reload_eq, Hon.
  unfold run_after_reload_enabled in Hon.
  destruct (scene_of_override (mk_override ed d) h1); [|discriminate].
  rewrite Hrun. simpl edit_text. rewrite Halive, final_host_of_triple, Halive.
  reflexivity.
Qed.

Lemma script_failure_does_not_stop_the_tick_witness :
  In (EPrint "AutoReloadScripts: reloaded broken.py")
     (trace (auto_reload_scripts_timer double_ops scenario_broken))
  /\ In (EReload 1) (trace (auto_reload_scripts_timer double_ops scenario_broken)).
Proof.
  destruct (script_failure_does_not_stop_the_tick double_ops scenario_broken the_editor
              0
              (RuntimeError "Python script failed, check the message in the system console")
              (with_data_texts [(0, doc "broken.py" "/proj/broken.py" false);
                                (1, doc "b.py" "/proj/b.py" true)] scenario_broken)
              (with_data_texts [(0, doc "broken.py" "/proj/broken.py" false);
                                (1, doc "b.py" "/proj/b.py" true)] scenario_broken)
              (doc "broken.py" "/proj/broken.py" false))
    as (_ & before_d & after_d & Htrace & Hcount).
  - reflexivity.
  - split; [left; reflexivity|]. split; reflexivity.
  - reflexivity.
  - reflexivity.
  - reflexivity.
  - reflexivity.
  - reflexivity.
  - rewrite Htrace. split.
    + apply in_or_app. right. apply in_or_app. left.
      right. right. right. right. left. reflexivity.
    + apply in_or_app. right. apply in_or_app. right.
      apply count_present. rewrite (Hcount 1).
      * vm_compute. lia.
      * left. reflexivity.
      * split; [right; left; reflexivity|]. split; reflexivity.
Defined.

(** ** What a tick leaves alone *)

(** X6: a tick changes the host only by calling the two operators: a
    property of the host that both operators preserve, whatever they are
    called on and whether they succeed or raise, still holds after the tick
    when it held before. *)
Theorem tick_acts_only_through_operators (ops : TextOps) (P : Host -> Prop) (h : Host) :
  preserved_by ops P ->
  P h ->
  P (final_host (auto_reload_scripts_timer ops h)).
Proof.
  intros Hkeep HP. apply (timer_preserves ops P Hkeep). exact HP.
Qed.

Lemma tick_acts_only_through_operators_witness :
  document_names (final_host (auto_reload_scripts_timer double_ops scenario_gone)) =
  [(0, "gone.py"); (1, "notes.txt"); (2, "live.py")].
Proof.
  apply (tick_acts_only_through_operators double_ops
           (fun h => document_names h = [(0, "gone.py"); (1, "notes.txt"); (2, "live.py")])
           scenario_gone).
  - apply double_keeps_names.
    intros p n [H|[H|[H|[]]]]; injection H as _ <-; discriminate.
  - reflexivity.
Defined.

Lemma for_texts_idle (ops : TextOps) ed docs h :
  (forall d, qualifies h d = false) ->
  for_texts ops ed docs h = (Ok tt, h, []).
Proof.
  intro Hnone. induction docs as [|x rest IH].
  - reflexivity.
  - rewrite for_texts_cons, reload_text_eq, (Hnone x).
    rewrite outcome_of_triple, final_host_of_triple, trace_of_triple. cbv zeta.
    rewrite IH. reflexivity.
Qed.

Lemma tick_idle (ops : TextOps) (h : Host) :
  (forall d, qualifies h d = false) ->
  auto_reload_scripts_timer ops h = (Ok (current_interval h), h, interval_reads h).
Proof.
  intro Hnone. rewrite timer_eq.
  destruct (find_text_editor (wm_windows h)) as [ed|]; [|reflexivity].
  rewrite (for_texts_idle ops ed _ h Hnone). cbv zeta.
  unfold outcome, final_host, trace. simpl. rewrite app_nil_r. reflexivity.
Qed.

(** X7: when no document passes the test of line 57, a tick calls no
    operator and prints nothing; it reads the interval, leaves the host as
    it is and returns the interval. *)
Theorem tick_without_modified_scripts (ops : TextOps) (h : Host) :
  (forall d, qualifies h d = false) ->
  auto_reload_scripts_timer ops h = (Ok (current_interval h), h, interval_reads h).
Proof.
  apply tick_idle.
Qed.

Lemma tick_without_modified_scripts_witness :
  auto_reload_scripts_timer double_ops scenario_idle =
  (Ok 2.0%float, scenario_idle, [EGetattr PROP_INTERVAL]).
Proof.
  apply (tick_without_modified_scripts double_ops scenario_idle).
  intros [|[|[|d]]]; reflexivity.
Defined.

(** ** Two ticks in a row *)

Lemma qualifies_needs_flag h d : modified_flag h d = false -> qualifies h d = false.
Proof.
  unfold modified_flag, qualifies, should_reload.
  destruct (text_at h d); [|reflexivity].
  intros ->. apply andb_false_r.
Qed.

Lemma double_keeps_unqualified d :
  preserved_by double_ops (fun h => qualifies h d = false).
Proof.
  intros ov h Hq. simpl. split.
  - unfold double_reload.
    destruct (text_at h (edit_text ov)) as [text|] eqn:Hn; [|exact Hq].
    destruct (name text =? "gone.py"); [exact Hq|].
    unfold qualifies, text_at in *. simpl.
    rewrite lookup_update.
    destruct (Nat.eqb_spec (edit_text ov) d) as [Heq|_]; [|exact Hq].
    subst d. rewrite Hn. simpl. unfold should_reload. simpl. apply andb_false_r.
  - unfold double_run_script.
    destruct (text_at h (edit_text ov)) as [text|]; [|exact Hq].
    destruct (name text =? "broken.py"); [exact Hq|].
    destruct (name text =? "switch_off.py"); [exact Hq|].
    destruct (name text =? "selfdel.py"); [|exact Hq].
    unfold qualifies, text_at in *. simpl.
    rewrite lookup_remove_ref.
    destruct (edit_text ov =? d)%nat; [reflexivity|exact Hq].
Qed.

(** X8: when the operators keep the collection of texts, after a tick in
    which every reload that was called succeeded, a tick that follows at
    once finds nothing to do: it calls no operator and leaves the host as it
    is.  The host's reload is taken to clear the modified flag, and the
    operators not to make a document pass the test. *)
Theorem next_tick_is_idle (ops : TextOps) (h : Host) :
  keeps_documents ops h ->
  reload_clears_flag ops ->
  (forall d, preserved_by ops (fun h0 => qualifies h0 d = false)) ->
  (forall ed d,
      find_text_editor (wm_windows h) = Some ed ->
      In d (texts_of h) ->
      qualifies (host_at ops ed h d) d = true ->
      fst (text_reload ops (mk_override ed d) (host_at ops ed h d)) = Ok tt) ->
  auto_reload_scripts_timer ops (final_host (auto_reload_scripts_timer ops h)) =
  (Ok (current_interval (final_host (auto_reload_scripts_timer ops h))),
   final_host (auto_reload_scripts_timer ops h),
   interval_reads (final_host (auto_reload_scripts_timer ops h))).
Proof.
  intros Hkept Hclears Hkeep Hok.
  destruct (find_text_editor (wm_windows h)) as [ed|] eqn:Hed.
  - apply tick_idle. intro d.
    destruct (in_dec Nat.eq_dec d (texts_of h)) as [Hin|Hnot].
    + rewrite timer_final_host, Hed.
      destruct (before_split d (texts_of h) Hin) as [rest Hsplit].
      assert (Hpre : outcome (for_texts ops ed (before d (texts_of h)) h) = Ok tt).
      { apply (kept_loop_ok ops h Hkept). intros x Hx. exact (before_incl d _ x Hx). }
      rewrite (for_texts_final_split ops ed h (texts_of h) d rest Hsplit Hpre). cbv zeta.
      fold (host_at ops ed h d).
      assert (Hbody : qualifies (final_host (reload_text ops ed d (host_at ops ed h d))) d
                      = false).
      { rewrite reload_text_final.
        destruct (qualifies (host_at ops ed h d) d) eqn:Hq; [|exact Hq].
        pose proof (Hok ed d eq_refl Hin Hq) as Hsucc.
        destruct (text_reload ops (mk_override ed d) (host_at ops ed h d))
          as [[[]|err] h1] eqn:Hr; [|discriminate Hsucc].
        apply (run_after_reload_preserves ops _ (Hkeep d)).
        apply qualifies_needs_flag.
        apply (Hclears (mk_override ed d) _ _ Hr). }
      destruct (outcome (reload_text ops ed d (host_at ops ed h d))); [|exact Hbody].
      apply (for_texts_preserves ops _ (Hkeep d)). exact Hbody.
    + unfold qualifies.
      destruct (text_at (final_host (auto_reload_scripts_timer ops h)) d) eqn:Ht;
        [|reflexivity].
      exfalso. apply Hnot. rewrite <- (kept_timer_texts ops h Hkept).
      apply texts_of_alive. rewrite Ht. discriminate.
  - rewrite (timer_final_host ops h), Hed. rewrite timer_eq, Hed. reflexivity.
Qed.


Lemma next_tick_is_idle_witness :
  trace (auto_reload_scripts_timer double_ops
           (final_host (auto_reload_scripts_timer double_ops scenario_one))) =
  [EGetattr PROP_INTERVAL].
Proof.
  rewrite (next_tick_is_idle double_ops scenario_one).
  - reflexivity.
  - apply double_keeps_documents.
    intros p n [H|[H|[H|[]]]]; injection H as _ <-; discriminate.
  - exact double_reload_clears_flag.
  - exact double_keeps_unqualified.
  - intros ed d Hed Hd Hq.
    vm_compute in Hed. injection Hed as <-.
    destruct Hd as [<-|[<-|[<-|[]]]].
    + reflexivity.
    + vm_compute in Hq. discriminate Hq.
    + vm_compute in Hq. discriminate Hq.
Defined.

(** ** Logging *)





(** ** Exceptions that leave a tick *)

(** X18: the handlers of lines 74 and 78 catch every exception of the
    operators; the only exception that leaves a tick is the [ReferenceError]
    of reading the name of a text that has been removed, and when the
    operators keep the collection of texts the tick returns the interval. *)
Theorem tick_raises_only_for_removed_text (ops : TextOps) (h : Host) :
  (forall e, outcome (auto_reload_scripts_timer ops h) = Raise e -> e = text_removed)
  /\ (keeps_documents ops h ->
      outcome (auto_reload_scripts_timer ops h) = Ok (current_interval h)).
Proof.
  split.
  - intro e. rewrite timer_outcome.
    destruct (find_text_editor (wm_windows h)) as [ed|]; [|discriminate].
    destruct (outcome (for_texts ops ed (texts_of h) h)) as [[]|e'] eqn:Hloop;
      [discriminate|].
    intro H. injection H as <-. exact (for_texts_raises ops ed _ h e' Hloop).
  - apply kept_timer_ok.
Qed.

(** ** The scene the option is read from *)

(** X19: the interval is read from the scene of the context the tick runs
    in (line 44), the run-after-reload option from the scene of the window
    that shows the editor (line 70, under the override).  With the option off
    in the first scene and on in the second, the script is run, and the
    delay is the interval of the first scene. *)
Theorem option_is_read_from_the_scene_of_the_editor_window :
  scene_of_context scenario_two_scenes =
    Some {| stored_interval := Some 2.0%float; stored_run_after_reload := Some false |}
  /\ scene_of_override (mk_override the_editor 0) scenario_two_scenes =
    Some {| stored_interval := Some 0.5%float; stored_run_after_reload := Some true |}
  /\ outcome (auto_reload_scripts_timer double_ops scenario_two_scenes) = Ok 2.0%float
  /\ count (ERunScript 0) (trace (auto_reload_scripts_timer double_ops scenario_two_scenes)) = 1.
Proof. repeat split; vm_compute; reflexivity. Qed.

(** ** More on registration *)

Lemma filter_none_left {A} (f : A -> bool) (l : list A) :
  existsb f l = false -> filter (fun x => negb (f x)) l = l.
Proof.
  induction l as [|x l IH]; simpl; intro H; [reflexivity|].
  apply orb_false_iff in H. destruct H as [Hx Hl].
  rewrite Hx. simpl. rewrite (IH Hl). reflexivity.
Qed.

(** X10: called while the panel class is registered, [register] raises the
    [ValueError] of [register_class] before it has changed anything: the
    class is registered first (lines 95-96) and nothing guards the call. *)
Theorem register_again_raises (h : Host) :
  is_class_registered ARS_PT_ReloadPanel h = true ->
  register h =
  (Raise (ValueError "register_class(...): already registered as a subclass"), h, []).
Proof.
  destruct h as [sc scs [pi pr] ws ts tm cs menu].
  unfold is_class_registered. cbn [registered_classes]. intro Hcls.
  unfold register. run_registry. rewrite Hcls. reflexivity.
Qed.

Lemma register_again_raises_witness :
  outcome ((register ;; register) fresh_host) =
  Raise (ValueError "register_class(...): already registered as a subclass").
Proof.
  unfold bind.
  change (register fresh_host)
    with (Ok tt, final_host (register fresh_host), trace (register fresh_host)).
  cbv beta iota.
  rewrite (register_again_raises (final_host (register fresh_host))).
  - reflexivity.
  - reflexivity.
Defined.

(** X11: a successful [register] adds one timer entry for the callback, at
    the end of the timers; it is persistent and its first interval is the
    interval the scene of the context stores, or the default of the
    property, which is 0.5 when [register] has just defined it, or 0.5 when
    no scene is reachable.  The entries from before stay, also those the
    callback already had. *)
Theorem register_schedules_the_callback (h h1 : Host) (t1 : list Event) :
  register h = (Ok tt, h1, t1) ->
  app_timers h1 =
    app_timers h
    ++ [ {| timer_function := auto_reload_scripts_timer_id;
            first_interval := registered_first_interval h;
            persistent := true |} ]
  /\ List.length (callback_timers h1) = S (List.length (callback_timers h))
  /\ (scene_of_context h = None -> registered_first_interval h = DEFAULT_CHECK_INTERVAL)
  /\ (ars_check_interval (types_Scene h) = None ->
      forall sc, scene_of_context h = Some sc -> stored_interval sc = None ->
      registered_first_interval h = DEFAULT_CHECK_INTERVAL).
Proof.
  intro Hreg.
  destruct (register_result h h1 t1 Hreg) as (_ & _ & Htm & _).
  split; [exact Htm|]. split; [|split].
  - unfold callback_timers. rewrite Htm, filter_app, length_app. simpl. lia.
  - unfold registered_first_interval. intros ->. reflexivity.
  - unfold registered_first_interval. intros -> sc -> ->. reflexivity.
Qed.

Lemma register_schedules_the_callback_witness :
  app_timers (final_host (register fresh_host)) =
  [ {| timer_function := auto_reload_scripts_timer_id;
       first_interval := 0.5%float;
       persistent := true |} ].
Proof.
  refine (proj1 (register_schedules_the_callback fresh_host
                   (final_host (register fresh_host)) (trace (register fresh_host)) _)).
  reflexivity.
Defined.

(** X12: a successful [register] defines each of the two scene properties
    only when the scene type does not have it yet (the [hasattr] tests of
    lines 99 and 125): an existing definition is kept as it is, a missing one
    is defined as in lines 100-108 and 126-130. *)
Theorem register_defines_missing_properties (h h1 : Host) (t1 : list Event) :
  register h = (Ok tt, h1, t1) ->
  ars_check_interval (types_Scene h1) =
    Some (match ars_check_interval (types_Scene h) with
          | Some p => p
          | None => interval_property
          end)
  /\ ars_run_after_reload (types_Scene h1) =
    Some (match ars_run_after_reload (types_Scene h) with
          | Some p => p
          | None => run_after_reload_property
          end).
Proof.
  destruct h as [sc scs [pi pr] ws ts tm cs menu].
  unfold register. run_registry.
  destruct (existsb (String.eqb ARS_PT_ReloadPanel) cs); run_registry; [discriminate|].
  destruct pi; run_registry;
    (destruct sc as [r|]; run_registry; [destruct (lookup r scs)|]); run_registry;
    (destruct menu as [funcs|]; run_registry; [|discriminate]);
    destruct pr; run_registry; intro H; injection H as <- _;
    split; reflexivity.
Qed.

Lemma register_defines_missing_properties_witness :
  types_Scene (final_host (register fresh_host)) = registered_types
  /\ types_Scene
       (final_host (register (with_types_Scene
                                {| ars_check_interval :=
                                     Some {| fp_name := "other"; fp_min := 1.0%float;
                                             fp_max := 5.0%float; fp_default := 3.0%float;
                                             fp_step := 1.0%float; fp_precision := 0 |};
                                   ars_run_after_reload := None |} fresh_host))) =
     {| ars_check_interval :=
          Some {| fp_name := "other"; fp_min := 1.0%float;
                  fp_max := 5.0%float; fp_default := 3.0%float;
                  fp_step := 1.0%float; fp_precision := 0 |};
        ars_run_after_reload := Some run_after_reload_property |}.
Proof.
  split.
  - destruct (register_defines_missing_properties fresh_host
                (final_host (register fresh_host)) (trace (register fresh_host)) eq_refl)
      as [Hi Hr].
    destruct (types_Scene (final_host (register fresh_host))).
    simpl in Hi, Hr. rewrite Hi, Hr. reflexivity.
  - reflexivity.
Defined.

(** X13: whether [unregister] completes is decided by the panel class
    alone: it returns normally exactly when the class is registered,
    whatever the state of the timer, of the two properties and of the menu. *)
Theorem unregister_completes_iff (h : Host) :
  outcome (unregister h) = Ok tt <-> is_class_registered ARS_PT_ReloadPanel h = true.
Proof.
  split.
  - intro Hok.
    destruct (is_class_registered ARS_PT_ReloadPanel h) eqn:Hcls; [reflexivity|].
    destruct (unregister_needs_registered_class h Hcls) as [msg Hraise].
    rewrite Hraise in Hok. discriminate Hok.
  - intro Hcls.
    destruct (unregister_result h Hcls) as (h2 & t2 & Hun & _).
    rewrite Hun. reflexivity.
Qed.

(** X14: when [unregister] raises because the panel class is not
    registered, it has already removed one timer entry of the callback,
    where there was one, and deleted both property definitions (lines
    138-147), and it has not reached the removal of the menu entry (lines
    153-157): the menu is left as it was. *)
Theorem unregister_failure_is_partial (h : Host) :
  is_class_registered ARS_PT_ReloadPanel h = false ->
  types_Scene (final_host (unregister h)) =
    {| ars_check_interval := None; ars_run_after_reload := None |}
  /\ app_timers (final_host (unregister h)) =
     match remove_timer auto_reload_scripts_timer_id (app_timers h) with
     | Some rest => rest
     | None => app_timers h
     end
  /\ List.length (callback_timers (final_host (unregister h)))
     = Nat.pred (List.length (callback_timers h))
  /\ types_TEXT_MT_text (final_host (unregister h)) = types_TEXT_MT_text h
  /\ registered_classes (final_host (unregister h)) = registered_classes h.
Proof.
  intro Hnot.
  assert (Hmain : types_Scene (final_host (unregister h)) =
                    {| ars_check_interval := None; ars_run_after_reload := None |}
                  /\ app_timers (final_host (unregister h)) =
                     match remove_timer auto_reload_scripts_timer_id (app_timers h) with
                     | Some rest => rest
                     | None => app_timers h
                     end
                  /\ types_TEXT_MT_text (final_host (unregister h)) = types_TEXT_MT_text h
                  /\ registered_classes (final_host (unregister h)) = registered_classes h).
  { revert Hnot. destruct h as [sc scs [pi pr] ws ts tm cs menu].
    unfold is_class_registered. cbn [registered_classes]. intro Hnot.
    unfold unregister. run_registry.
    destruct (remove_timer auto_reload_scripts_timer_id tm) eqn:Htm;
      run_registry; destruct pi; run_registry; destruct pr; run_registry;
      rewrite Hnot; run_registry; repeat split. }
  destruct Hmain as (Hty & Htm & Hmenu & Hcls).
  split; [exact Hty|]. split; [exact Htm|]. split; [|split; assumption].
  unfold callback_timers. rewrite Htm.
  destruct (remove_timer auto_reload_scripts_timer_id (app_timers h)) as [rest|] eqn:Hrem.
  - destruct (remove_timer_filter _ _ _ Hrem) as [Hlen _]. rewrite Hlen. reflexivity.
  - apply remove_timer_none in Hrem.
    assert (Hnone : filter (fun t => timer_function t =? auto_reload_scripts_timer_id)
                           (app_timers h) = []).
    { revert Hrem. generalize (app_timers h) as l.
      induction l as [|t l IH]; simpl; [reflexivity|].
      destruct (timer_function t =? auto_reload_scripts_timer_id); simpl;
        [discriminate|exact IH]. }
    rewrite Hnone. reflexivity.
Qed.

Lemma unregister_failure_is_partial_witness :
  outcome (unregister (with_registered_classes [] (final_host (register fresh_host)))) =
    Raise (RuntimeError
      "unregister_class(...):, missing bl_rna attribute from 'RNAMeta' instance (may not be registered)")
  /\ types_TEXT_MT_text
       (final_host (unregister (with_registered_classes [] (final_host (register fresh_host))))) =
     Some [ars_text_menu].
Proof.
  split; [reflexivity|].
  destruct (unregister_failure_is_partial
              (with_registered_classes [] (final_host (register fresh_host))))
    as (_ & _ & _ & Hmenu & _).
  - reflexivity.
  - rewrite Hmenu. reflexivity.
Defined.

Lemma host_eta h :
  h = {| context_scene := context_scene h;
         data_scenes := data_scenes h;
         types_Scene := types_Scene h;
         wm_windows := wm_windows h;
         data_texts := data_texts h;
         app_timers := app_timers h;
         registered_classes := registered_classes h;
         types_TEXT_MT_text := types_TEXT_MT_text h |}.
Proof. destruct h. reflexivity. Qed.

(** What [register] leaves alone, and the two definitions after it. *)
Lemma register_session h h1 t1 :
  register h = (Ok tt, h1, t1) ->
  context_scene h1 = context_scene h
  /\ data_scenes h1 = data_scenes h
  /\ wm_windows h1 = wm_windows h
  /\ data_texts h1 = data_texts h.
Proof.
  destruct h as [sc scs [pi pr] ws ts tm cs menu].
  unfold register. run_registry.
  destruct (existsb (String.eqb ARS_PT_ReloadPanel) cs); run_registry; [discriminate|].
  destruct pi; run_registry;
    (destruct sc as [r|]; run_registry; [destruct (lookup r scs)|]); run_registry;
    (destruct menu as [funcs|]; run_registry; [|discriminate]);
    destruct pr; run_registry; intro H; injection H as <- _;
    repeat split.
Qed.

(** X15: on a host in which the add-on has left no trace, [register]
    succeeds and a following [unregister] restores the host exactly:
    properties, timers, classes and menu are as before. *)
Theorem register_unregister_round_trip (h : Host) :
  addon_absent h ->
  exists h1 t1 t2,
    register h = (Ok tt, h1, t1) /\ unregister h1 = (Ok tt, h, t2).
Proof.
  intros (Hty & Htm & Hcls & funcs & Hmenu & Hnew).
  assert (Hreg : exists h1 t1, register h = (Ok tt, h1, t1)).
  { revert Hty Htm Hcls Hmenu. destruct h as [sc scs [pi pr] ws ts tm cs menu].
    unfold is_timer_registered, is_class_registered.
    cbn [types_Scene app_timers registered_classes types_TEXT_MT_text].
    intros Hty Htm Hcls Hmenu. injection Hty as -> ->. subst menu.
    unfold register. run_registry. rewrite Hcls. run_registry.
    destruct sc as [r|]; run_registry; [destruct (lookup r scs)|]; run_registry;
      do 2 eexists; reflexivity. }
  destruct Hreg as (h1 & t1 & Hreg). exists h1, t1.
  destruct (register_result h h1 t1 Hreg) as (_ & Hcls1 & Htm1 & funcs' & Hmenu' & Hmenu1).
  destruct (register_session h h1 t1 Hreg) as (Hsc & Hscs & Hws & Hts).
  assert (Hreg1 : is_class_registered ARS_PT_ReloadPanel h1 = true).
  { unfold is_class_registered. rewrite Hcls1. apply existsb_last. apply String.eqb_refl. }
  destruct (unregister_result h1 Hreg1)
    as (h2 & t2 & Hun & Hty2 & Htm2 & Hcl2 & Hmenu2 & Hsc2 & Hscs2 & Hws2 & Hts2).
  exists t2. split; [exact Hreg|]. rewrite Hun. f_equal. f_equal.
  rewrite (host_eta h2), (host_eta h).
  rewrite Hsc2, Hsc, Hscs2, Hscs, Hws2, Hws, Hts2, Hts, Hty2, Hty.
  rewrite Htm2, Htm1, Hcl2, Hcls1, Hmenu2, Hmenu1.
  unfold is_timer_registered in Htm.
  rewrite (remove_timer_app_new auto_reload_scripts_timer_id (app_timers h)
             {| timer_function := auto_reload_scripts_timer_id;
                first_interval := registered_first_interval h;
                persistent := true |} Htm eq_refl).
  rewrite Hmenu in Hmenu'. injection Hmenu' as <-.
  cbn [option_map]. rewrite (remove_first_app_new _ _ Hnew).
  rewrite filter_app. cbn [filter]. rewrite String.eqb_refl. cbn [negb].
  rewrite app_nil_r. unfold is_class_registered in Hcls.
  rewrite (filter_none_left _ (registered_classes h) Hcls), Hmenu. reflexivity.
Qed.

Lemma register_unregister_round_trip_witness :
  final_host (unregister (final_host (register fresh_host))) = fresh_host.
Proof.
  destruct (register_unregister_round_trip fresh_host) as (h1 & t1 & t2 & Hreg & Hun).
  - split; [reflexivity|]. split; [reflexivity|]. split; [reflexivity|].
    exists []. split; [reflexivity|]. intros [].
  - rewrite Hreg. change (final_host (Ok tt, h1, t1)) with h1.
    rewrite Hun. reflexivity.
Defined.

(** X16: [register] and [unregister] touch the registries only: whether
    they complete or raise, the scenes with the values they store, the
    scene of the context, the windows and the documents are as before.  The
    interval and the option a user has set survive unregistration. *)
Theorem registration_keeps_the_session (h : Host) :
  (context_scene (final_host (register h)) = context_scene h
   /\ wm_windows (final_host (register h)) = wm_windows h
   /\ data_texts (final_host (register h)) = data_texts h)
  /\ (context_scene (final_host (unregister h)) = context_scene h
      /\ wm_windows (final_host (unregister h)) = wm_windows h
      /\ data_texts (final_host (unregister h)) = data_texts h)
  /\ data_scenes (final_host (register h)) = data_scenes h
  /\ data_scenes (final_host (unregister h)) = data_scenes h.
Proof.
  destruct h as [sc scs [pi pr] ws ts tm cs menu].
  assert (Hreg : context_scene (final_host (register
                   (Build_Host sc scs (Build_SceneType pi pr) ws ts tm cs menu))) = sc
                 /\ wm_windows (final_host (register
                   (Build_Host sc scs (Build_SceneType pi pr) ws ts tm cs menu))) = ws
                 /\ data_texts (final_host (register
                   (Build_Host sc scs (Build_SceneType pi pr) ws ts tm cs menu))) = ts
                 /\ data_scenes (final_host (register
                   (Build_Host sc scs (Build_SceneType pi pr) ws ts tm cs menu))) = scs).
  { unfold register. run_registry.
    destruct (existsb (String.eqb ARS_PT_ReloadPanel) cs); run_registry;
      [repeat split|].
    destruct pi; run_registry;
      (destruct sc as [r|]; run_registry; [destruct (lookup r scs)|]); run_registry;
      (destruct menu as [funcs|]; run_registry; [|repeat split]);
      destruct pr; run_registry; repeat split. }
  assert (Hun : context_scene (final_host (unregister
                   (Build_Host sc scs (Build_SceneType pi pr) ws ts tm cs menu))) = sc
                 /\ wm_windows (final_host (unregister
                   (Build_Host sc scs (Build_SceneType pi pr) ws ts tm cs menu))) = ws
                 /\ data_texts (final_host (unregister
                   (Build_Host sc scs (Build_SceneType pi pr) ws ts tm cs menu))) = ts
                 /\ data_scenes (final_host (unregister
                   (Build_Host sc scs (Build_SceneType pi pr) ws ts tm cs menu))) = scs).
  { unfold unregister. run_registry.
    destruct (remove_timer auto_reload_scripts_timer_id tm);
      run_registry; destruct pi; run_registry; destruct pr; run_registry;
      (destruct (existsb (String.eqb ARS_PT_ReloadPanel) cs); run_registry;
       [|repeat split]);
      (destruct menu as [funcs|]; run_registry;
       [destruct (remove_first ars_text_menu funcs); run_registry|]);
      repeat split. }
  cbn [context_scene wm_windows data_texts data_scenes] in *.
  destruct Hreg as (H1 & H2 & H3 & H4). destruct Hun as (H5 & H6 & H7 & H8).
  repeat split; assumption.
Qed.

